(** * SmartBudget: the ledger and aggregation core of [src/main.py]

    A shallow embedding of the data held by [SmartBudgetApp] (transactions,
    budget limits, saving goals, regular payments), of the operations that
    change it ([add_transaction], [set_budget_limit], [add_saving_goal],
    [add_regular_payment], [quick_add_income], [quick_add_expense],
    [import_from_csv], [save_data], [load_data]) and of the computations
    behind the views ([calculate_balance], [update_dashboard], [update_chart],
    [update_pie_charts], [update_stats], [update_budget_limits_table],
    [update_goals_table], [show_category_transactions], [update_all_tabs],
    [export_to_csv]).

    Widgets, colours and animations are left out.  What the program asks of
    Python itself (number arithmetic, [float()], [str.strip], [strptime],
    [strftime]) and of matplotlib ([pie]) is gathered in the class [Runtime];
    the development is generic in it, and [Binary64] is the instance used to
    run examples.  Reading and writing [data.json] is taken to succeed, and
    the file to hold what [json.dump] wrote. *)

From Stdlib Require Import String Ascii List Bool Arith ZArith Lia.
From Stdlib Require Import Sorted Permutation OrderedTypeEx.
From Stdlib Require Import Floats.PrimFloat Floats.FloatOps Floats.SpecFloat Uint63.
Import ListNotations.
Local Open Scope string_scope.

(** ** Strings *)

Module PyStr.

(** [s.replace(a, b)] for one-character [a] and [b]. *)
Fixpoint replace (a b : ascii) (s : string) : string :=
  match s with
  | EmptyString => EmptyString
  | String c s' => String (if Ascii.eqb c a then b else c) (replace a b s')
  end.

(** [s.split(sep)] for a one-character separator: the fields between the
    separators, always at least one. *)
Fixpoint split (sep : ascii) (s : string) : list string :=
  match s with
  | EmptyString => [EmptyString]
  | String c s' =>
      if Ascii.eqb c sep then EmptyString :: split sep s'
      else match split sep s' with
           | field :: fields => String c field :: fields
           | [] => [String c EmptyString]
           end
  end.

(** The characters Python takes for white space, below 128. *)
Definition is_space (c : ascii) : bool :=
  let n := nat_of_ascii c in
  (((9 <=? n) && (n <=? 13)) || ((28 <=? n) && (n <=? 32)))%nat.

Fixpoint lstrip (s : string) : string :=
  match s with
  | EmptyString => EmptyString
  | String c s' => if is_space c then lstrip s' else s
  end.

Fixpoint rstrip (s : string) : string :=
  match s with
  | EmptyString => EmptyString
  | String c s' =>
      match rstrip s' with
      | EmptyString => if is_space c then EmptyString else String c EmptyString
      | r => String c r
      end
  end.

Definition strip (s : string) : string := rstrip (lstrip s).

Definition is_digit (c : ascii) : bool :=
  let n := nat_of_ascii c in ((48 <=? n) && (n <=? 57))%nat.

Definition digit_of (c : ascii) : nat := nat_of_ascii c - 48.

(** The number written by a string of decimal digits; [None] when some
    character is not a digit.  The empty string counts as [0]. *)
Fixpoint digits_from (acc : N) (s : string) : option N :=
  match s with
  | EmptyString => Some acc
  | String c s' =>
      if is_digit c then digits_from (10 * acc + N.of_nat (digit_of c)) s'
      else None
  end.

Definition digits (s : string) : option N := digits_from 0 s.

Definition char_of_digit (d : nat) : ascii := ascii_of_nat (48 + d).

(** [n] in decimal on at least [width] digits, padded with zeros. *)
Fixpoint zero_padded (width : nat) (n : nat) : string :=
  match width with
  | O => EmptyString
  | S w => zero_padded w (n / 10) ++ String (char_of_digit (n mod 10)) EmptyString
  end.

End PyStr.

(** ** The Python runtime *)

(** A [datetime] as [strptime] builds it from ["%Y-%m-%d"]: only the date
    part is ever set. *)
Record datetime : Type := mk_datetime {
  dt_year : nat;
  dt_month : nat;
  dt_day : nat
}.

(** What the program takes from Python and from matplotlib.  [num] is the
    type of the amounts: the [float]s that [float()] returns (and the [int]
    literals [0], [75], [100], which Python converts when they meet a
    [float]).  [None] stands for the [ValueError] that [float()] and
    [strptime] raise; [pie] tells whether [Axes.pie] draws the sizes it is
    given ([true]) or raises. *)
Class Runtime : Type := {
  num : Type;
  int_lit : Z -> num;
  add : num -> num -> num;
  sub : num -> num -> num;
  mul : num -> num -> num;
  true_div : num -> num -> num;
  gt : num -> num -> bool;
  ge : num -> num -> bool;
  float_of_str : string -> option num;
  str_strip : string -> string;
  strptime_ymd : string -> option datetime;
  strftime_ym : datetime -> string;
  pie : list num -> bool
}.

(** ** Binary64: the runtime on IEEE 754 doubles

    Arithmetic and comparisons are those of the machine doubles.  The library
    calls are written out for plain ASCII inputs: [float()] on an optionally
    signed decimal literal (digits, at most one point) that converts with a
    single correctly rounded division, [strip] on ASCII white space,
    [strptime] on the three fields that the expression for ["%Y-%m-%d"]
    accepts.  Texts beyond that (exponents, [inf], [nan], digits of other
    scripts) are not covered by this instance; no general statement below
    depends on it.  [pie] is that of matplotlib with [normalize=True], its
    default. *)

Module Binary64.

Definition of_N (n : N) : float := PrimFloat.of_uint63 (Uint63.of_Z (Z.of_N n)).

Definition of_Z (z : Z) : float :=
  match z with
  | Zneg p => PrimFloat.opp (of_N (Npos p))
  | _ => of_N (Z.to_N z)
  end.

(** Splits at the first point: the integer digits and what follows. *)
Fixpoint cut_point (s : string) : string * option string :=
  match s with
  | EmptyString => (EmptyString, None)
  | String c s' =>
      if Ascii.eqb c "."%char then (EmptyString, Some s')
      else let '(i, f) := cut_point s' in (String c i, f)
  end.

Definition unsigned_decimal (s : string) : option float :=
  let '(i, f) := cut_point s in
  let frac := match f with Some f' => f' | None => EmptyString end in
  if ((String.length i =? 0) && (String.length frac =? 0))%nat then None
  else
    match PyStr.digits (i ++ frac) with
    | None => None
    | Some m =>
        if ((m <? 2 ^ 53)%N && (String.length frac <=? 18)%nat)%bool
        then Some (PrimFloat.div (of_N m) (of_N (10 ^ N.of_nat (String.length frac))))
        else None
    end.

Definition float_of_str (s : string) : option float :=
  match PyStr.strip s with
  | String "-" s' => option_map PrimFloat.opp (unsigned_decimal s')
  | String "+" s' => unsigned_decimal s'
  | s' => unsigned_decimal s'
  end.

Definition is_leap (y : nat) : bool :=
  (((y mod 4 =? 0) && negb (y mod 100 =? 0)) || (y mod 400 =? 0))%nat.

Definition days_in_month (y m : nat) : nat :=
  match m with
  | 2 => if is_leap y then 29 else 28
  | 4 | 6 | 9 | 11 => 30
  | _ => 31
  end.

(** The year field: exactly four digits. *)
Definition year_field (s : string) : option nat :=
  if (String.length s =? 4)%nat then option_map N.to_nat (PyStr.digits s) else None.

(** The month field: [1[0-2]|0[1-9]|[1-9]]. *)
Definition month_field (s : string) : option nat :=
  match PyStr.digits s with
  | Some n =>
      let n := N.to_nat n in
      if ((1 <=? String.length s) && (String.length s <=? 2)
          && (1 <=? n) && (n <=? 12))%nat then Some n else None
  | None => None
  end.

(** The day field: [3[01]|[12]\d|0[1-9]|[1-9]| [1-9]]. *)
Definition day_field (s : string) : option nat :=
  let body := match s with
              | String " " (String c EmptyString) => String c EmptyString
              | _ => s
              end in
  match PyStr.digits body with
  | Some n =>
      let n := N.to_nat n in
      if ((1 <=? String.length body) && (String.length body <=? 2)
          && (1 <=? n) && (n <=? 31))%nat then Some n else None
  | None => None
  end.

(** [datetime.strptime(s, "%Y-%m-%d")]. *)
Definition strptime_ymd (s : string) : option datetime :=
  match PyStr.split "-" s with
  | [y; m; d] =>
      match year_field y, month_field m, day_field d with
      | Some y, Some m, Some d =>
          if ((1 <=? y) && (d <=? days_in_month y m))%nat
          then Some (mk_datetime y m d) else None
      | _, _, _ => None
      end
  | _ => None
  end.

(** [d.strftime("%Y-%m")], the year on four digits (some C libraries leave
    a year below 1000 unpadded). *)
Definition strftime_ym (d : datetime) : string :=
  PyStr.zero_padded 4 (dt_year d) ++ "-" ++ PyStr.zero_padded 2 (dt_month d).

(** [ax.pie(sizes, ...)]: the sizes are converted to [float32]; a negative
    one is refused with a [ValueError], and sizes that are not finite or are
    all zero have no fractions, at which the wedges fail.  A double becomes
    zero in [float32] up to [2^-150] and infinite from [2^128 - 2^103] on.
    [true] when the pie is drawn. *)
Definition pie (sizes : list float) : bool :=
  forallb (fun x => PrimFloat.leb (-0x1p-150) x && PrimFloat.ltb x 0x1.ffffffp+127) sizes
  && existsb (fun x => PrimFloat.ltb 0x1p-150 x) sizes.

End Binary64.

#[export] Instance Binary64 : Runtime := {|
  num := float;
  int_lit := Binary64.of_Z;
  add := PrimFloat.add;
  sub := PrimFloat.sub;
  mul := PrimFloat.mul;
  true_div := PrimFloat.div;
  gt := fun a b => PrimFloat.ltb b a;
  ge := fun a b => PrimFloat.leb b a;
  float_of_str := Binary64.float_of_str;
  str_strip := PyStr.strip;
  strptime_ymd := Binary64.strptime_ymd;
  strftime_ym := Binary64.strftime_ym;
  pie := Binary64.pie
|}.

(** ** Python dictionaries

    A [dict] keeps its keys in the order of first insertion, each key once:
    an association list that [dict_set] updates in place or extends at its
    end. *)

Definition dict (V : Type) : Type := list (string * V).

Section Dict.
Context {V : Type}.

(** [d.get(k)] *)
Fixpoint dict_get (k : string) (d : dict V) : option V :=
  match d with
  | [] => None
  | (k', v) :: d' => if (k' =? k)%string then Some v else dict_get k d'
  end.

(** [d[k] = v] *)
Fixpoint dict_set (k : string) (v : V) (d : dict V) : dict V :=
  match d with
  | [] => [(k, v)]
  | (k', v') :: d' =>
      if (k' =? k)%string then (k, v) :: d' else (k', v') :: dict_set k v d'
  end.

Definition dict_keys (d : dict V) : list string := map fst d.

Definition dict_values (d : dict V) : list V := map snd d.

(** [d[k]] in a [defaultdict] whose factory returns [default]. *)
Definition dd_get (default : V) (k : string) (d : dict V) : V :=
  match dict_get k d with
  | Some v => v
  | None => default
  end.

(** [d[k] = f(d[k])] in a [defaultdict]: the shape of [d[k] += x]. *)
Definition dd_update (default : V) (k : string) (f : V -> V) (d : dict V) : dict V :=
  dict_set k (f (dd_get default k d)) d.

(** A loop [for t in ts: d[key(t)] = step(t, d[key(t)])] over a
    [defaultdict]. *)
Definition dd_fold {T : Type} (default : V) (key : T -> string) (step : T -> V -> V)
  (ts : list T) (d : dict V) : dict V :=
  fold_left (fun d t => dd_update default (key t) (step t) d) ts d.

(** One step of [sorted] on [(key, value)] pairs with distinct keys. *)
Fixpoint insert_item (x : string * V) (l : list (string * V)) : list (string * V) :=
  match l with
  | [] => [x]
  | y :: l' => if (fst x <=? fst y)%string then x :: l else y :: insert_item x l'
  end.

(** [sorted(d.items())]: ascending in the key; the keys of a dictionary are
    distinct, so the values are never compared. *)
Definition sorted_items (d : dict V) : list (string * V) :=
  fold_right insert_item [] d.

End Dict.

(** ** Dates and moments *)

(** A moment as [datetime.now()] gives it: the date and the time of day,
    counted from midnight.  [strptime] with ["%Y-%m-%d"] gives the date at
    midnight. *)
Record Moment : Type := mk_moment {
  moment_date : datetime;
  moment_clock : nat
}.

(** The order of two dates. *)
Definition datetime_compare (a b : datetime) : comparison :=
  match Nat.compare (dt_year a) (dt_year b) with
  | Eq => match Nat.compare (dt_month a) (dt_month b) with
          | Eq => Nat.compare (dt_day a) (dt_day b)
          | c => c
          end
  | c => c
  end.

(** [a < b] for two dates. *)
Definition earlier (a b : datetime) : Prop :=
  dt_year a < dt_year b
  \/ (dt_year a = dt_year b
      /\ (dt_month a < dt_month b
          \/ (dt_month a = dt_month b /\ dt_day a < dt_day b))).

(** [a >= b] for a date [a], taken at midnight, and a moment [b]. *)
Definition on_or_after (a : datetime) (b : Moment) : bool :=
  match datetime_compare a (moment_date b) with
  | Gt => true
  | Eq => (moment_clock b =? 0)%nat
  | Lt => false
  end.

(** [now.replace(day=1)] *)
Definition first_of_month (now : Moment) : Moment :=
  mk_moment (mk_datetime (dt_year (moment_date now)) (dt_month (moment_date now)) 1)
            (moment_clock now).

(** [now.replace(month=1, day=1)] *)
Definition first_of_year (now : Moment) : Moment :=
  mk_moment (mk_datetime (dt_year (moment_date now)) 1 1) (moment_clock now).

(** One step of [sorted] on a set of dates: ascending, each date once. *)
Fixpoint insert_day (d : datetime) (l : list datetime) : list datetime :=
  match l with
  | [] => [d]
  | x :: l' =>
      match datetime_compare d x with
      | Lt => d :: l
      | Eq => l
      | Gt => x :: insert_day d l'
      end
  end.

(** [sorted(set(l))] *)
Definition sorted_days (l : list datetime) : list datetime :=
  fold_right insert_day [] l.

(** ** The ledger *)

Section Ledger.
Context {R : Runtime}.

(** The number [0]: the [int] literal where [sum] and the month totals
    start, and the [0.0] of [defaultdict(float)] and of a new goal. *)
Definition zero : num := int_lit 0.

(** [sum(xs)]: from [0], left to right, as the loops of the program add
    by hand.  (CPython adds [float]s in this way up to 3.11; from 3.12 on
    [sum] carries a compensation for the rounding, so that on [float]s it can
    differ from the loop in the last digit.  Where a statement below equates
    a [sum] of the program with [py_sum] of a list, the list is what
    matters.) *)
Definition py_sum (xs : list num) : num := fold_left add xs zero.

(** *** Data *)

(** A transaction: the dictionary with the keys ["type"], ["category"],
    ["amount"], ["date"], ["description"]. *)
Record Transaction : Type := mk_transaction {
  tx_type : string;
  tx_category : string;
  tx_amount : num;
  tx_date : string;
  tx_description : string
}.

(** A saving goal: ["name"], ["amount"], ["target_date"], ["saved"]. *)
Record SavingGoal : Type := mk_goal {
  goal_name : string;
  goal_amount : num;
  goal_target_date : string;
  goal_saved : num
}.

(** A regular payment: ["name"], ["amount"], ["category"], ["frequency"],
    ["last_paid"] ([None] until paid). *)
Record RegularPayment : Type := mk_payment {
  pay_name : string;
  pay_amount : num;
  pay_category : string;
  pay_frequency : string;
  pay_last_paid : option string
}.

(** What [json.dump] writes and [json.load] returns. *)
#[local] Unset Elimination Schemes.
Inductive json : Type :=
| JNull : json
| JNum : num -> json
| JStr : string -> json
| JList : list json -> json
| JDict : dict json -> json.
#[local] Set Elimination Schemes.

(** What the user gets to see besides the tables: the document written to
    [data.json], and the boxes of [QMessageBox.warning] and
    [QMessageBox.critical] with their text.  Where a box reports an exception
    that was caught, the text given here is the part before [str(e)]. *)
Inductive Event : Type :=
| Saved : json -> Event
| Warning : string -> Event
| Critical : string -> Event.

(** The state of [SmartBudgetApp] with the file [data.json] ([None] while it
    does not exist) and the events so far. *)
Record App : Type := mk_app {
  transactions : list Transaction;
  budget_limits : dict num;
  saving_goals : list SavingGoal;
  regular_payments : list RegularPayment;
  data_json : option json;
  log : list Event
}.

Definition income_type : string := "Доход".
Definition expense_type : string := "Расход".

(** [self.budget_categories.get(transaction_type, [])] *)
Definition budget_categories (transaction_type : string) : list string :=
  if (transaction_type =? income_type)%string then
    ["Зарплата"; "Фриланс"; "Инвестиции"; "Подарки"; "Другое"]
  else if (transaction_type =? expense_type)%string then
    ["Еда"; "Транспорт"; "Жилье"; "Развлечения"; "Здоровье";
     "Одежда"; "Образование"; "Другое"]
  else [].

(** The state right after the fields are set in [__init__]. *)
Definition init : App := mk_app [] [] [] [] None [].

Definition set_transactions (ts : list Transaction) (app : App) : App :=
  mk_app ts (budget_limits app) (saving_goals app) (regular_payments app)
         (data_json app) (log app).

Definition set_budget_limits (d : dict num) (app : App) : App :=
  mk_app (transactions app) d (saving_goals app) (regular_payments app)
         (data_json app) (log app).

Definition set_saving_goals (gs : list SavingGoal) (app : App) : App :=
  mk_app (transactions app) (budget_limits app) gs (regular_payments app)
         (data_json app) (log app).

Definition set_regular_payments (ps : list RegularPayment) (app : App) : App :=
  mk_app (transactions app) (budget_limits app) (saving_goals app) ps
         (data_json app) (log app).

Definition emit (e : Event) (app : App) : App :=
  mk_app (transactions app) (budget_limits app) (saving_goals app)
         (regular_payments app) (data_json app) (log app ++ [e]).

(** *** Persistence *)

Definition transaction_json (t : Transaction) : json :=
  JDict [("type", JStr (tx_type t)); ("category", JStr (tx_category t));
         ("amount", JNum (tx_amount t)); ("date", JStr (tx_date t));
         ("description", JStr (tx_description t))].

Definition goal_json (g : SavingGoal) : json :=
  JDict [("name", JStr (goal_name g)); ("amount", JNum (goal_amount g));
         ("target_date", JStr (goal_target_date g)); ("saved", JNum (goal_saved g))].

Definition payment_json (p : RegularPayment) : json :=
  JDict [("name", JStr (pay_name p)); ("amount", JNum (pay_amount p));
         ("category", JStr (pay_category p)); ("frequency", JStr (pay_frequency p));
         ("last_paid", match pay_last_paid p with
                       | Some d => JStr d
                       | None => JNull
                       end)].

(** The dictionary [data] of [save_data]. *)
Definition document (app : App) : json :=
  JDict [("transactions", JList (map transaction_json (transactions app)));
         ("budget_limits", JDict (map (fun '(c, l) => (c, JNum l)) (budget_limits app)));
         ("saving_goals", JList (map goal_json (saving_goals app)));
         ("regular_payments", JList (map payment_json (regular_payments app)))].

(** [save_data]: the whole document is written anew.  The write is taken
    to succeed; the source reports a failed one with a warning and goes on,
    the file then being as it was. *)
Definition save_data (app : App) : App :=
  mk_app (transactions app) (budget_limits app) (saving_goals app)
         (regular_payments app) (Some (document app))
         (log app ++ [Saved (document app)]).

Definition get_str (k : string) (d : dict json) : option string :=
  match dict_get k d with
  | Some (JStr s) => Some s
  | _ => None
  end.

Definition get_num (k : string) (d : dict json) : option num :=
  match dict_get k d with
  | Some (JNum n) => Some n
  | _ => None
  end.

(** The loaded dictionaries, read back as records; [None] for an entry that
    is not of the persisted layout. *)
Definition as_transaction (j : json) : option Transaction :=
  match j with
  | JDict d =>
      match get_str "type" d, get_str "category" d, get_num "amount" d,
            get_str "date" d, get_str "description" d with
      | Some ty, Some c, Some a, Some dt, Some ds => Some (mk_transaction ty c a dt ds)
      | _, _, _, _, _ => None
      end
  | _ => None
  end.

Definition as_goal (j : json) : option SavingGoal :=
  match j with
  | JDict d =>
      match get_str "name" d, get_num "amount" d, get_str "target_date" d,
            get_num "saved" d with
      | Some n, Some a, Some td, Some s => Some (mk_goal n a td s)
      | _, _, _, _ => None
      end
  | _ => None
  end.

Definition as_payment (j : json) : option RegularPayment :=
  match j with
  | JDict d =>
      match get_str "name" d, get_num "amount" d, get_str "category" d,
            get_str "frequency" d, dict_get "last_paid" d with
      | Some n, Some a, Some c, Some f, Some JNull => Some (mk_payment n a c f None)
      | Some n, Some a, Some c, Some f, Some (JStr lp) => Some (mk_payment n a c f (Some lp))
      | _, _, _, _, _ => None
      end
  | _ => None
  end.

Definition as_limit (kv : string * json) : option (string * num) :=
  match kv with
  | (c, JNum l) => Some (c, l)
  | _ => None
  end.

(** All of [l] through [f], or [None] as soon as one entry fails. *)
Fixpoint traverse {A B : Type} (f : A -> option B) (l : list A) : option (list B) :=
  match l with
  | [] => Some []
  | x :: l' =>
      match f x, traverse f l' with
      | Some y, Some ys => Some (y :: ys)
      | _, _ => None
      end
  end.

(** [data.get(key, [])] for the three sequences. *)
Definition get_list {A : Type} (f : json -> option A) (key : string) (data : dict json)
  : option (list A) :=
  match dict_get key data with
  | None => Some []
  | Some (JList l) => traverse f l
  | Some _ => None
  end.

(** [data.get("budget_limits", {})] *)
Definition get_limits (data : dict json) : option (dict num) :=
  match dict_get "budget_limits" data with
  | None => Some []
  | Some (JDict d) => traverse as_limit d
  | Some _ => None
  end.

(** The text of the warning of [load_data], before [str(e)]. *)
Definition load_failed : string := "Не удалось загрузить данные: ".

(** [load_data]: without [data.json] nothing changes; otherwise the four
    collections are replaced by those of the document.  A document that is
    not an object has no [get]: the exception is caught and reported.  The
    result is [None] for a document whose entries are not of the persisted
    layout: the source assigns them all the same, but the records above
    cannot hold them, and nothing is stated about such a load. *)
Definition load_data (app : App) : option App :=
  match data_json app with
  | None => Some app
  | Some (JDict data) =>
      match get_list as_transaction "transactions" data, get_limits data,
            get_list as_goal "saving_goals" data,
            get_list as_payment "regular_payments" data with
      | Some ts, Some ls, Some gs, Some ps =>
          Some (mk_app ts ls gs ps (data_json app) (log app))
      | _, _, _, _ => None
      end
  | Some _ => Some (emit (Warning load_failed) app)
  end.

(** *** Operations *)

(** The widgets that [add_transaction] reads: the current text of each, the
    date already formatted as ["yyyy-MM-dd"]. *)
Record TransactionForm : Type := mk_transaction_form {
  transaction_type_combo : string;
  category_combo : string;
  amount_input : string;
  date_edit : string;
  description_input : string
}.

Definition invalid_amount : string := "Пожалуйста, введите корректную сумму".

(** [float(text.replace(',', '.'))] *)
Definition parse_amount (text : string) : option num :=
  float_of_str (PyStr.replace "," "." text).

(** [add_transaction]: the amount is parsed first; on [ValueError] a warning
    is shown and nothing else happens.  Otherwise the transaction is appended
    and the document saved.  The tables and charts redrawn afterwards are
    the views further down. *)
Definition add_transaction (form : TransactionForm) (app : App) : App :=
  let category := category_combo form in
  match parse_amount (amount_input form) with
  | None => emit (Warning invalid_amount) app
  | Some amount =>
      let date := date_edit form in
      let description := description_input form in
      let transaction_type := transaction_type_combo form in
      let transaction := mk_transaction transaction_type category amount date description in
      save_data (set_transactions (transactions app ++ [transaction]) app)
  end.

(** [set_budget_limit]: [budget_category_combo] and [budget_limit_input]. *)
Definition set_budget_limit (category limit_input : string) (app : App) : App :=
  match parse_amount limit_input with
  | None => emit (Warning invalid_amount) app
  | Some limit => save_data (set_budget_limits (dict_set category limit (budget_limits app)) app)
  end.

(** [add_saving_goal]: name, amount text and formatted target date. *)
Definition add_saving_goal (name amount_text date : string) (app : App) : App :=
  match parse_amount amount_text with
  | None => emit (Warning invalid_amount) app
  | Some amount =>
      let goal := mk_goal name amount date zero in
      save_data (set_saving_goals (saving_goals app ++ [goal]) app)
  end.

(** [add_regular_payment]: name, amount text, category and frequency. *)
Definition add_regular_payment (name amount_text category frequency : string) (app : App)
  : App :=
  match parse_amount amount_text with
  | None => emit (Warning invalid_amount) app
  | Some amount =>
      let payment := mk_payment name amount category frequency None in
      save_data (set_regular_payments (regular_payments app ++ [payment]) app)
  end.

(** [quick_add_income]: the two dialogs give a category of the income with
    its [ok], and an amount with its [ok]; [today] is the current date,
    formatted. *)
Definition quick_add_income (category : string) (ok_category : bool)
  (amount : num) (ok_amount : bool) (today : string) (app : App) : App :=
  if negb ok_category then app
  else if ok_amount then
    let transaction := mk_transaction income_type category amount today "Быстрый доход" in
    save_data (set_transactions (transactions app ++ [transaction]) app)
  else app.

(** [quick_add_expense] *)
Definition quick_add_expense (category : string) (ok_category : bool)
  (amount : num) (ok_amount : bool) (today : string) (app : App) : App :=
  if negb ok_category then app
  else if ok_amount then
    let transaction := mk_transaction expense_type category amount today "Быстрый расход" in
    save_data (set_transactions (transactions app ++ [transaction]) app)
  else app.

(** The body of the loop of [import_from_csv] for one line: [None] where the
    code says [continue]. *)
Definition import_line (line : string) : option Transaction :=
  let parts := PyStr.split ";" (str_strip line) in
  if (length parts <? 5)%nat then None
  else
    match parts with
    | date :: trans_type :: category :: amount :: desc :: _ =>
        match parse_amount amount with
        | None => None
        | Some amount => Some (mk_transaction trans_type category amount date desc)
        end
    | _ => None
    end.

(** The loop: each line that yields a transaction appends it. *)
Definition import_lines (lines : list string) (app : App) : App :=
  fold_left (fun app line =>
               match import_line line with
               | Some transaction =>
                   set_transactions (transactions app ++ [transaction]) app
               | None => app
               end) lines app.


(** *** Views *)

Definition is_type (ty : string) (t : Transaction) : bool := (tx_type t =? ty)%string.

Definition amounts (ts : list Transaction) : list num := map tx_amount ts.

(** The two sums of [update_dashboard]. *)
Definition total_income (app : App) : num :=
  py_sum (amounts (filter (is_type income_type) (transactions app))).

Definition total_expense (app : App) : num :=
  py_sum (amounts (filter (is_type expense_type) (transactions app))).

(** The texts of the three cards of [update_dashboard], before formatting:
    balance, income, expense. *)
Definition update_dashboard (app : App) : num * num * num :=
  let total_income := py_sum (amounts (filter (is_type income_type) (transactions app))) in
  let total_expense := py_sum (amounts (filter (is_type expense_type) (transactions app))) in
  let balance := sub total_income total_expense in
  (balance, total_income, total_expense).

(** [calculate_balance] *)
Definition calculate_balance (app : App) : num :=
  let total_income := py_sum (amounts (filter (is_type income_type) (transactions app))) in
  let total_expense := py_sum (amounts (filter (is_type expense_type) (transactions app))) in
  sub total_income total_expense.

(** An entry of [months] in [update_chart]. *)
Record MonthTotals : Type := mk_month {
  income : num;
  expense : num
}.

(** [datetime.strptime(t["date"], "%Y-%m-%d").strftime("%Y-%m")] *)
Definition month_key (t : Transaction) : option string :=
  option_map strftime_ym (strptime_ymd (tx_date t)).

(** What one transaction does to its month. *)
Definition add_to_month (t : Transaction) (m : MonthTotals) : MonthTotals :=
  if is_type income_type t then mk_month (add (income m) (tx_amount t)) (expense m)
  else mk_month (income m) (add (expense m) (tx_amount t)).

(** The loop of [update_chart]; [None] when [strptime] raises. *)
Fixpoint months_loop (ts : list Transaction) (months : dict MonthTotals)
  : option (dict MonthTotals) :=
  match ts with
  | [] => Some months
  | t :: ts' =>
      match month_key t with
      | None => None
      | Some key => months_loop ts' (dd_update (mk_month zero zero) key (add_to_month t) months)
      end
  end.

(** [sorted_months] of [update_chart] *)
Definition sorted_months (app : App) : option (list (string * MonthTotals)) :=
  option_map sorted_items (months_loop (transactions app) []).

(** The three lists that [update_chart] hands to the bar chart:
    [month_labels], [income_values], [expense_values]. *)
Definition update_chart (app : App) : option (list string * list num * list num) :=
  option_map (fun sorted_months =>
                (map fst sorted_months,
                 map (fun m => income (snd m)) sorted_months,
                 map (fun m => expense (snd m)) sorted_months))
             (sorted_months app).

(** The monthly series: the entries of [sorted_months] as triples. *)
Definition monthly_series (app : App) : option (list (string * num * num)) :=
  option_map (map (fun m => (fst m, income (snd m), expense (snd m)))) (sorted_months app).

(** [d[k] += x] in a [defaultdict(float)] *)
Definition dd_add (k : string) (x : num) (d : dict num) : dict num :=
  dd_update zero k (fun v => add v x) d.

(** The loops of [update_pie_charts]: the amounts of one type by category. *)
Definition categories_of (ty : string) (app : App) : dict num :=
  fold_left (fun d t => if is_type ty t then dd_add (tx_category t) (tx_amount t) d else d)
            (transactions app) [].

Definition income_categories (app : App) : dict num := categories_of income_type app.

Definition expense_categories (app : App) : dict num := categories_of expense_type app.

(** A row of the budget table: category, limit, spent, and whether the
    spent amount is set in red. *)
Record BudgetRow : Type := mk_budget_row {
  row_category : string;
  row_limit : num;
  row_spent : num;
  row_over : bool
}.

(** [update_budget_limits_table] *)
Definition update_budget_limits_table (app : App) : list BudgetRow :=
  map (fun '(category, limit) =>
         let spent := py_sum (amounts (filter (fun t => is_type expense_type t
                                                          && (tx_category t =? category)%string)
                                                (transactions app))) in
         mk_budget_row category limit spent (gt spent limit))
      (budget_limits app).

(** The three colours of the progress column. *)
Inductive Colour : Type :=
| Green
| Amber
| Red.

(** A row of the goals table: name, amount, date, progress and its colour. *)
Record GoalRow : Type := mk_goal_row {
  grow_name : string;
  grow_amount : num;
  grow_date : string;
  grow_progress : num;
  grow_colour : Colour
}.

(** [update_goals_table] *)
Definition update_goals_table (app : App) : list GoalRow :=
  map (fun goal =>
         let progress := if gt (goal_amount goal) zero
                         then mul (true_div (goal_saved goal) (goal_amount goal)) (int_lit 100)
                         else zero in
         let colour := if ge progress (int_lit 100) then Green
                       else if ge progress (int_lit 75) then Amber
                       else Red in
         mk_goal_row (goal_name goal) (goal_amount goal) (goal_target_date goal)
                     progress colour)
      (saving_goals app).

End Ledger.

(** ** The redraw and the import *)

Section Redraw.
Context {R : Runtime}.

(** [if categories: ax.pie(categories.values(), ...)]: an empty breakdown
    is not drawn at all. *)
Definition pie_drawn (categories : dict num) : bool :=
  match categories with
  | [] => true
  | _ => pie (dict_values categories)
  end.

(** [update_pie_charts]: the breakdown of the income and that of the
    expenses, each drawn unless it is empty; [None] when [pie] raises. *)
Definition update_pie_charts (app : App) : option (dict num * dict num) :=
  let income_categories := categories_of income_type app in
  if pie_drawn income_categories then
    let expense_categories := categories_of expense_type app in
    if pie_drawn expense_categories then Some (income_categories, expense_categories)
    else None
  else None.

(** *** The statistics *)

(** The list comprehensions of [update_stats]: the transactions from
    [start_date] on; [None] when [strptime] raises. *)
Fixpoint since (start_date : Moment) (ts : list Transaction) : option (list Transaction) :=
  match ts with
  | [] => Some []
  | t :: ts' =>
      match strptime_ymd (tx_date t), since start_date ts' with
      | Some d, Some kept => Some (if on_or_after d start_date then t :: kept else kept)
      | _, _ => None
      end
  end.

Definition this_month : string := "За месяц".
Definition this_year : string := "За год".

(** The transactions of the chosen period. *)
Definition period_transactions (period : string) (now : Moment) (app : App)
  : option (list Transaction) :=
  if (period =? this_month)%string then since (first_of_month now) (transactions app)
  else if (period =? this_year)%string then since (first_of_year now) (transactions app)
  else Some (transactions app).

(** A [defaultdict(float)] with dates as keys. *)
Definition by_day : Type := list (datetime * num).

Definition same_day (a b : datetime) : bool :=
  match datetime_compare a b with
  | Eq => true
  | _ => false
  end.

Fixpoint day_get (d : datetime) (days : by_day) : option num :=
  match days with
  | [] => None
  | (d', v) :: days' => if same_day d' d then Some v else day_get d days'
  end.

Fixpoint day_set (d : datetime) (v : num) (days : by_day) : by_day :=
  match days with
  | [] => [(d, v)]
  | (d', v') :: days' =>
      if same_day d' d then (d, v) :: days' else (d', v') :: day_set d v days'
  end.

(** [days.get(d, 0)] *)
Definition day_value (d : datetime) (days : by_day) : num :=
  match day_get d days with
  | Some v => v
  | None => zero
  end.

(** [days[d] += x] *)
Definition day_add (d : datetime) (x : num) (days : by_day) : by_day :=
  day_set d (add (day_value d days) x) days.

(** The loop over the days; [None] when [strptime] raises. *)
Fixpoint days_loop (ts : list Transaction) (income_by_day expense_by_day : by_day)
  : option (by_day * by_day) :=
  match ts with
  | [] => Some (income_by_day, expense_by_day)
  | t :: ts' =>
      match strptime_ymd (tx_date t) with
      | None => None
      | Some date =>
          if is_type income_type t
          then days_loop ts' (day_add date (tx_amount t) income_by_day) expense_by_day
          else days_loop ts' income_by_day (day_add date (tx_amount t) expense_by_day)
      end
  end.

(** The day of a transaction whose date can be read. *)
Definition day_of (t : Transaction) : datetime :=
  match strptime_ymd (tx_date t) with
  | Some d => d
  | None => mk_datetime 0 0 0
  end.

(** The date of the transaction reads as the day [d]. *)
Definition on_day (d : datetime) (t : Transaction) : bool :=
  match strptime_ymd (tx_date t) with
  | Some d' => same_day d' d
  | None => false
  end.

(** What [update_stats] draws: the days, the income and the expense of each
    day, and the income by category of the period. *)
Record Stats : Type := mk_stats {
  stats_dates : list datetime;
  stats_income : list num;
  stats_expense : list num;
  stats_income_categories : dict num
}.

(** [update_stats] for the period chosen in the box, at the moment [now].
    Nothing is drawn without dates; with dates, the income of the period is
    drawn by category unless there is none.  [None] when [strptime] or [pie]
    raises. *)
Definition update_stats (period : string) (now : Moment) (app : App) : option Stats :=
  match period_transactions period now app with
  | None => None
  | Some transactions =>
      match days_loop transactions [] [] with
      | None => None
      | Some (income_by_day, expense_by_day) =>
          let dates := sorted_days (map fst income_by_day ++ map fst expense_by_day) in
          let income_values := map (fun d => day_value d income_by_day) dates in
          let expense_values := map (fun d => day_value d expense_by_day) dates in
          let income_categories :=
            match dates with
            | [] => []
            | _ => fold_left (fun d t => if is_type income_type t
                                         then dd_add (tx_category t) (tx_amount t) d
                                         else d) transactions []
            end in
          if pie_drawn income_categories
          then Some (mk_stats dates income_values expense_values income_categories)
          else None
      end
  end.

(** *** The redraw *)

(** [update_all_tabs] redraws everything, with the period that the box of
    the statistics shows, at the moment [now].  [update_dashboard] comes first
    and reaches [update_chart], where [strptime] raises on a date it cannot
    read, and [update_pie_charts]; [update_stats] follows; the tables only
    format what is stored.  [true] when the redraw goes through. *)
Definition update_all_tabs (period : string) (now : Moment) (app : App) : bool :=
  match update_chart app with
  | None => false
  | Some _ =>
      match update_pie_charts app with
      | None => false
      | Some _ =>
          match update_stats period now app with
          | None => false
          | Some _ => true
          end
      end
  end.

(** *** The import *)

(** The file chosen in the dialog, as [open(filename, 'r', encoding='utf-8')]
    and the iteration over it find it: a file that cannot be opened, a file
    that decodes to its end, given by its lines, or a file that does not,
    given by the lines that the iteration yields before it raises
    [UnicodeDecodeError]. *)
Inductive CsvFile : Type :=
| Unopened : CsvFile
| Utf8 : list string -> CsvFile
| Garbled : list string -> CsvFile.

(** The lines after the first. *)
Definition rows (file : CsvFile) : list string :=
  match file with
  | Unopened => []
  | Utf8 lines => tl lines
  | Garbled lines => tl lines
  end.

(** The text of the box of [import_from_csv], before [str(e)]. *)
Definition import_failed : string := "Не удалось импортировать данные: ".

(** [import_from_csv] on the chosen file (a cancelled dialog returns before
    anything is read).  All of it stands in one [try]: whatever is raised is
    reported by the same box.  [open] raises on a file it cannot open.
    [next(f)] drops the first line; on a file without any line it raises
    [StopIteration], on one that does not decode [UnicodeDecodeError].  The
    loop appends the rows as it reads them, so the rows read before a
    [UnicodeDecodeError] stay appended, and nothing is saved.  After the loop
    [save_data] is called, once, and then the redraw, which may raise
    too. *)
Definition import_from_csv (file : CsvFile) (period : string) (now : Moment) (app : App)
  : App :=
  match file with
  | Unopened => emit (Critical import_failed) app
  | Utf8 [] => emit (Critical import_failed) app
  | Utf8 (_ :: lines) =>
      let app' := save_data (import_lines lines app) in
      if update_all_tabs period now app' then app'
      else emit (Critical import_failed) app'
  | Garbled [] => emit (Critical import_failed) app
  | Garbled (_ :: lines) => emit (Critical import_failed) (import_lines lines app)
  end.

End Redraw.

(** ** The specification's vocabulary *)

Section Vocabulary.
Context {R : Runtime}.

(** The transaction falls in the month [key]. *)
Definition in_month (key : string) (t : Transaction) : bool :=
  match month_key t with
  | Some key' => (key' =? key)%string
  | None => false
  end.

(** The month of a transaction whose date can be read. *)
Definition month_of (t : Transaction) : string :=
  match month_key t with
  | Some key => key
  | None => EmptyString
  end.

(** Strictly ascending in the first component. *)
Definition ascending {A : Type} (key : A -> string) (l : list A) : Prop :=
  StronglySorted (fun a b => (key a <? key b)%string = true) l.

(** The fields of a row of the tabular format. *)
Definition row_fields (line : string) : list string :=
  PyStr.split ";" (str_strip line).

(** The rows that parse, as transactions, in the order of the file. *)
Definition imported (lines : list string) : list Transaction :=
  fold_right (fun line acc =>
                match import_line line with
                | Some t => t :: acc
                | None => acc
                end) [] lines.

(** The category of a transaction is one of those of its type. *)
Definition valid_category (t : Transaction) : Prop :=
  In (tx_category t) (budget_categories (tx_type t)).

(** The type of a transaction is one of the two of the taxonomy. *)
Definition valid_type (t : Transaction) : Prop :=
  tx_type t = income_type \/ tx_type t = expense_type.

(** How often the document was written in a run of events. *)
Definition saves (events : list Event) : nat :=
  length (filter (fun e => match e with
                           | Saved _ => true
                           | _ => false
                           end) events).

(** What was spent in a category: the expenses of the whole history. *)
Definition spent_in (app : App) (category : string) : num :=
  py_sum (amounts (filter (fun t => is_type expense_type t
                                    && (tx_category t =? category)%string)
                          (transactions app))).

(** The amounts that a sum over the transactions picked by [p] adds, in
    the order of the ledger. *)
Definition summed (p : Transaction -> bool) (app : App) : list num :=
  amounts (filter p (transactions app)).

(** [goal_progress]: saved / amount * 100 if amount > 0, else 0. *)
Definition goal_progress (goal : SavingGoal) : num :=
  if gt (goal_amount goal) zero
  then mul (true_div (goal_saved goal) (goal_amount goal)) (int_lit 100)
  else zero.

(** The bands of the progress: complete, near, behind. *)
Inductive Band : Type :=
| Complete
| Near
| Behind.

Definition band_of (progress : num) : Band :=
  if ge progress (int_lit 100) then Complete
  else if ge progress (int_lit 75) then Near
  else Behind.

(** The colour in which the table shows a band. *)
Definition band_colour (b : Band) : Colour :=
  match b with
  | Complete => Green
  | Near => Amber
  | Behind => Red
  end.

(** The sum of the values of a breakdown, in the order of its keys. *)
Definition sum_values (d : dict num) : num := py_sum (dict_values d).

(** Addition is exact on the whole multiples of a unit, from none of them
    up to [bound] of them; [repr n] is the amount of [n] units. *)
Definition adds_exactly_up_to (bound : Z) (repr : Z -> num) : Prop :=
  repr 0%Z = zero
  /\ (forall n m : Z, (0 <= n)%Z -> (0 <= m)%Z -> (n + m <= bound)%Z ->
                      add (repr n) (repr m) = repr (n + m)%Z).

(** So many units in all. *)
Definition total (l : list Z) : Z := fold_right Z.add 0%Z l.

(** A breakdown counted in units, as amounts. *)
Definition repr_dict (repr : Z -> num) (d : dict Z) : dict num :=
  map (fun kv => (fst kv, repr (snd kv))) d.

(** The expenses of the ledger, in the order of the ledger. *)
Definition expenses (app : App) : list Transaction :=
  filter (is_type expense_type) (transactions app).

(** Every expense is a whole number of units, none negative, and all of
    them together are within [bound]: [units] counts them. *)
Definition whole_expenses (bound : Z) (repr : Z -> num) (units : Transaction -> Z)
  (app : App) : Prop :=
  Forall (fun t => (0 <= units t)%Z /\ tx_amount t = repr (units t)) (expenses app)
  /\ (total (map units (expenses app)) <= bound)%Z.

(** *** The claims that the code does not bear out, as they are worded *)


(** The date of the transaction begins with the month [key]. *)
Definition has_prefix (key : string) (t : Transaction) : bool :=
  (substring 0 7 (tx_date t) =? key)%string.

(** The monthly series exists, groups by the prefix of the date, ascends
    strictly, and each entry holds the income and the expense of its
    month. *)
Definition monthly_series_claim (app : App) : Prop :=
  exists series,
    monthly_series app = Some series
    /\ ascending (fun e => fst (fst e)) series
    /\ (forall key, In key (map (fun e => fst (fst e)) series)
                    <-> exists t, In t (transactions app) /\ substring 0 7 (tx_date t) = key)
    /\ (forall key inc exp, In (key, inc, exp) series ->
          inc = py_sum (amounts (filter (fun t => has_prefix key t && is_type income_type t)
                                        (transactions app)))
          /\ exp = py_sum (amounts (filter (fun t => has_prefix key t
                                                     && is_type expense_type t)
                                           (transactions app)))).

(** The breakdown of the expenses has exactly the categories of the expense
    transactions, and its values add up to the total expense. *)
Definition breakdown_claim (app : App) : Prop :=
  (forall category, In category (dict_keys (expense_categories app))
                    <-> exists t, In t (transactions app)
                                  /\ tx_type t = expense_type /\ tx_category t = category)
  /\ sum_values (expense_categories app) = total_expense app.

(** The import drops the first line, appends the rows that parse, in order,
    and writes the document once. *)
Definition import_claim (file : CsvFile) (period : string) (now : Moment) (app : App)
  : Prop :=
  transactions (import_from_csv file period now app)
  = (transactions app ++ imported (rows file))%list
  /\ saves (skipn (length (log app)) (log (import_from_csv file period now app))) = 1.

End Vocabulary.

(** ** Worked examples *)

Module Examples.

Definition form (ty category amount date description : string) : TransactionForm :=
  mk_transaction_form ty category amount date description.

(** A salary of 1000 in January, food for 200 in January and for 50 in
    February. *)
Definition three_forms : list TransactionForm :=
  [form "Доход" "Зарплата" "1000" "2024-01-05" "";
   form "Расход" "Еда" "200" "2024-01-10" "";
   form "Расход" "Еда" "50" "2024-02-01" ""].

Definition run {R : Runtime} (forms : list TransactionForm) (app : App) : App :=
  fold_left (fun app f => add_transaction f app) forms app.

Definition ledger : App := run three_forms init.

(** An income entered under a category of the expenses. *)
Definition foreign_category : TransactionForm :=
  form "Доход" "Еда" "100" "2024-01-05" "".

(** Three expenses whose sum depends on the order of the additions. *)
Definition rounding_forms : list TransactionForm :=
  [form "Расход" "Еда" "0.1" "2024-01-10" "";
   form "Расход" "Транспорт" "0.1" "2024-01-11" "";
   form "Расход" "Еда" "1" "2024-01-12" ""].

Definition rounding_ledger : App := run rounding_forms init.

Definition header : string := "Дата;Тип;Категория;Сумма;Описание".

(** The period that the box of the statistics shows at first, and noon of
    the tenth of March 2024. *)
Definition period : string := "За месяц".

Definition noon : Moment := mk_moment (mk_datetime 2024 3 10) 720.

(** The row of the specification, as a line of a file. *)
Definition transport_row : string := "2024-03-01;Expense;Transport;99,50;Bus".

(** A file with a short row, a row whose amount is no number, and two rows
    that parse. *)
Definition mixed_file : list string :=
  [header; "2024-03-01;Expense;Transport;99,50;Bus"; "2024-03-02;Расход;Еда";
   "2024-03-03;Расход;Еда;abc;"; "2024-03-04;Расход;Еда;12.5;обед"].

(** An income under a category of the expenses, as a row. *)
Definition foreign_file : list string :=
  [header; "2024-03-01;Доход;Еда;5;"].

(** A row whose type is neither of the two. *)
Definition transfer_file : list string :=
  [header; "2024-03-01;Перевод;Другое;5;"].

Definition transfer_ledger : App := import_from_csv (Utf8 transfer_file) period noon init.

(** The worked example with a limit of 100 on food, a goal and a regular
    payment. *)
Definition limited : App := set_budget_limit "Еда" "100" ledger.

Definition full : App :=
  add_regular_payment "Аренда" "30000" "Жилье" "Ежемесячно"
    (add_saving_goal "Отпуск" "50000" "2025-06-01" limited).

(** The program started anew on the file that [app] left behind. *)
Definition restarted {R : Runtime} (app : App) : App :=
  mk_app [] [] [] [] (data_json app) [].

(** Expenses of 200, 50 and 50 in two categories, and how many fifties
    each of them is. *)
Definition whole_forms : list TransactionForm :=
  [form "Расход" "Еда" "200" "2024-01-10" "";
   form "Расход" "Транспорт" "50" "2024-01-11" "";
   form "Доход" "Зарплата" "1000" "2024-01-12" "";
   form "Расход" "Еда" "50" "2024-01-12" ""].

Definition whole_ledger : App := run whole_forms init.

Definition fifties (n : Z) : float := Binary64.of_Z (50 * n).

Definition in_fifties (t : @Transaction Binary64) : Z :=
  if PrimFloat.eqb (tx_amount t) 200 then 4%Z
  else if PrimFloat.eqb (tx_amount t) 50 then 1%Z
  else 0%Z.

(** A goal of 200 with 150 saved, one reached and one not begun. *)
Definition goals_app : App :=
  mk_app [] []
         [mk_goal "A" 200%float "2025-01-01" 150%float;
          mk_goal "B" 100%float "2025-01-01" 100%float;
          mk_goal "C" 100%float "2025-01-01" 0%float;
          mk_goal "D" 0%float "2025-01-01" 10%float]
         [] None [].

End Examples.

(** ** The rest of the program *)

(** The text of a file as the iteration over it yields it, in text mode:
    line by line, each line with its end, the three line ends all read as
    a line feed. *)
Module PyFile.

Definition LF : ascii := ascii_of_nat 10.
Definition CR : ascii := ascii_of_nat 13.

Definition starts_with_lf (s : string) : bool :=
  match s with
  | String c _ => Ascii.eqb c LF
  | EmptyString => false
  end.

Definition cons_line (line : string) (lines : list string) : list string :=
  match line with
  | EmptyString => lines
  | _ => line :: lines
  end.

(** The first line, possibly without its end, and the lines after it. *)
Fixpoint lines_from (s : string) : string * list string :=
  match s with
  | EmptyString => (EmptyString, [])
  | String c s' =>
      let '(first, others) := lines_from s' in
      if Ascii.eqb c LF then (String LF EmptyString, cons_line first others)
      else if Ascii.eqb c CR then
        if starts_with_lf s' then (first, others)
        else (String LF EmptyString, cons_line first others)
      else (String c first, others)
  end.

Definition lines (s : string) : list string :=
  let '(first, others) := lines_from s in cons_line first others.

(** No line end among the characters. *)
Fixpoint one_line (s : string) : bool :=
  match s with
  | EmptyString => true
  | String c s' => negb (Ascii.eqb c LF) && negb (Ascii.eqb c CR) && one_line s'
  end.

(** No separator of fields and no line end among the characters. *)
Fixpoint plain (s : string) : bool :=
  match s with
  | EmptyString => true
  | String c s' =>
      negb (Ascii.eqb c ";"%char) && negb (Ascii.eqb c LF) && negb (Ascii.eqb c CR)
      && plain s'
  end.

End PyFile.

Section Details.
Context {R : Runtime}.

(** *** The transactions of a category *)

(** One step of [sorted(..., key=date, reverse=True)]: the sort is stable,
    so a transaction goes before the later ones of the same date. *)
Fixpoint insert_recent (t : Transaction) (l : list Transaction) : list Transaction :=
  match l with
  | [] => [t]
  | u :: l' =>
      if (tx_date u <=? tx_date t)%string then t :: l else u :: insert_recent t l'
  end.

Definition sorted_recent (l : list Transaction) : list Transaction :=
  fold_right insert_recent [] l.

(** From the latest date to the earliest. *)
Definition newest_first (l : list Transaction) : Prop :=
  StronglySorted (fun a b => (tx_date b <=? tx_date a)%string = true) l.

(** What [show_category_transactions] shows: the note that there is
    nothing, or the heading with the transactions listed under it. *)
Inductive CategoryDialog : Type :=
| NoTransactions : string -> CategoryDialog
| Listing : string -> string -> list Transaction -> CategoryDialog.

(** [show_category_transactions] *)
Definition show_category_transactions (trans_type category : string) (app : App)
  : CategoryDialog :=
  let transactions :=
    filter (fun t => (tx_type t =? trans_type)%string && (tx_category t =? category)%string)
           (transactions app) in
  match transactions with
  | [] => NoTransactions category
  | _ => Listing category trans_type (firstn 10 (sorted_recent transactions))
  end.


(** *** The export *)

Section CsvExport.
(** [f"{x:.2f}"] *)
Variable format_2f : num -> string.

Definition newline : string := String PyFile.LF EmptyString.

Definition export_header : string := "Дата;Тип;Категория;Сумма;Описание".

(** A row of the export, without its line end. *)
Definition export_row (transaction : Transaction) : string :=
  tx_date transaction ++ ";" ++ tx_type transaction ++ ";" ++ tx_category transaction
  ++ ";" ++ format_2f (tx_amount transaction) ++ ";" ++ tx_description transaction.

(** [export_to_csv]: what is written to the file, piece by piece. *)
Definition export_to_csv (app : App) : list string :=
  (export_header ++ newline) :: map (fun t => export_row t ++ newline) (transactions app).

(** The file that the export leaves. *)
Definition exported_file (app : App) : string :=
  String.concat EmptyString (export_to_csv app).

(** What the import makes of an exported transaction: the amount is read
    back from its two decimals. *)
Definition reimported (t : Transaction) : option Transaction :=
  option_map (fun a => mk_transaction (tx_type t) (tx_category t) a (tx_date t)
                                      (tx_description t))
             (parse_amount (format_2f (tx_amount t))).

(** A transaction that the export writes on one line of five fields, which
    [strip] leaves as it is but for the line end. *)
Definition exportable (t : Transaction) : Prop :=
  PyFile.plain (tx_date t) = true /\ PyFile.plain (tx_type t) = true
  /\ PyFile.plain (tx_category t) = true /\ PyFile.plain (tx_description t) = true
  /\ PyFile.plain (format_2f (tx_amount t)) = true
  /\ str_strip (export_row t ++ newline) = export_row t.

End CsvExport.

(** *** What the user does *)

Inductive Action : Type :=
| AddTransaction : TransactionForm -> Action
| SetBudgetLimit : string -> string -> Action
| AddSavingGoal : string -> string -> string -> Action
| AddRegularPayment : string -> string -> string -> string -> Action
| QuickAddIncome : string -> bool -> num -> bool -> string -> Action
| QuickAddExpense : string -> bool -> num -> bool -> string -> Action
| ImportFromCsv : CsvFile -> string -> Moment -> Action.

(** The slot that an action calls. *)
Definition perform (a : Action) (app : App) : App :=
  match a with
  | AddTransaction form => add_transaction form app
  | SetBudgetLimit category limit_input => set_budget_limit category limit_input app
  | AddSavingGoal name amount_text date => add_saving_goal name amount_text date app
  | AddRegularPayment name amount_text category frequency =>
      add_regular_payment name amount_text category frequency app
  | QuickAddIncome category ok_category amount ok_amount today =>
      quick_add_income category ok_category amount ok_amount today app
  | QuickAddExpense category ok_category amount ok_amount today =>
      quick_add_expense category ok_category amount ok_amount today app
  | ImportFromCsv file period now => import_from_csv file period now app
  end.

(** The actions of a session, one after the other. *)
Definition session (actions : list Action) (app : App) : App :=
  fold_left (fun app a => perform a app) actions app.

(** The collections of two states are the same. *)
Definition same_store (a b : App) : Prop :=
  transactions a = transactions b /\ budget_limits a = budget_limits b
  /\ saving_goals a = saving_goals b /\ regular_payments a = regular_payments b.

(** Nothing recorded is lost from [a] to [b]: the transactions, the goals,
    the payments and the events of [a] begin those of [b]. *)
Definition extends (a b : App) : Prop :=
  (exists added, transactions b = (transactions a ++ added)%list)
  /\ (exists added, saving_goals b = (saving_goals a ++ added)%list)
  /\ (exists added, regular_payments b = (regular_payments a ++ added)%list)
  /\ (exists added, log b = (log a ++ added)%list).




(** The fields that no operation writes: nothing is saved towards any
    goal, and no payment was ever paid. *)
Definition untouched (app : App) : Prop :=
  Forall (fun g => goal_saved g = int_lit 0) (saving_goals app)
  /\ Forall (fun p => pay_last_paid p = None) (regular_payments app).

(** The program started on the file that [app] left: [__init__] sets the
    collections empty and calls [load_data]. *)
Definition restart (app : App) : option App :=
  load_data (mk_app [] [] [] [] (data_json app) []).

End Details.

(** ** Two decimals of a double *)

Module Format64.

(** The decimal digits of [n], none for [0]. *)
Fixpoint digits_of (fuel : nat) (n : N) : string :=
  match fuel with
  | O => EmptyString
  | S fuel' =>
      if (n =? 0)%N then EmptyString
      else digits_of fuel' (n / 10)
           ++ String (PyStr.char_of_digit (N.to_nat (n mod 10))) EmptyString
  end.

Definition decimal (n : N) : string :=
  if (n =? 0)%N then "0" else digits_of (S (N.size_nat n)) n.

(** [m * 2 ^ e * 100], rounded to the nearest integer, a tie to the even
    one. *)
Definition hundredths (m : positive) (e : Z) : N :=
  match e with
  | Zneg p =>
      let den := (2 ^ Npos p)%N in
      let q := (Npos m * 100 / den)%N in
      let r := (Npos m * 100 mod den)%N in
      match (2 * r ?= den)%N with
      | Lt => q
      | Gt => (q + 1)%N
      | Eq => if N.even q then q else (q + 1)%N
      end
  | _ => (Npos m * 2 ^ Z.to_N e * 100)%N
  end.

(** [f"{x:.2f}"] for a double. *)
Definition format_2f (x : float) : string :=
  match Prim2SF x with
  | S754_zero s => (if s then "-" else "") ++ "0.00"
  | S754_infinity s => (if s then "-" else "") ++ "inf"
  | S754_nan => "nan"
  | S754_finite s m e =>
      let n := hundredths m e in
      (if s then "-" else "") ++ decimal (n / 100) ++ "."
      ++ PyStr.zero_padded 2 (N.to_nat (n mod 100))
  end.

End Format64.

(** ** More worked examples *)

Module Cases.

(** Nine in the morning of the tenth of January 2024. *)
Definition morning : Moment := mk_moment (mk_datetime 2024 1 10) 540.

(** A day at the form, the quick dialogs and the import. *)
Definition busy_day : list Action :=
  [AddTransaction (Examples.form "Доход" "Зарплата" "1000" "2024-01-05" "");
   SetBudgetLimit "Еда" "100";
   SetBudgetLimit "Еда" "abc";
   AddSavingGoal "Отпуск" "50000" "2025-06-01";
   AddRegularPayment "Аренда" "30000" "Жилье" "Ежемесячно";
   QuickAddExpense "Еда" true 200%float true "2024-01-10";
   QuickAddIncome "Подарки" true 10%float false "2024-01-10";
   ImportFromCsv (Utf8 Examples.mixed_file) this_month morning;
   ImportFromCsv (Utf8 []) this_month morning;
   ImportFromCsv Unopened this_month morning;
   SetBudgetLimit "Еда" "150"].

Definition evening : App := session busy_day init.

(** The same day at midnight. *)
Definition midnight : Moment := mk_moment (mk_datetime 2024 1 10) 0.

(** An expense on the first of January and one on the second. *)
Definition new_year : App :=
  add_transaction (Examples.form "Расход" "Еда" "20" "2024-01-02" "")
    (add_transaction (Examples.form "Расход" "Еда" "10" "2024-01-01" "") init).

(** A document with the transactions alone, and one that is a list. *)
Definition bare_document : App :=
  mk_app [] [("Еда", 1%float)] [] [] (Some (JDict [("transactions", JList [])])) [].

Definition list_document : App := mk_app [] [] [] [] (Some (JList [])) [].

(** A file that stops decoding after its fourth line, imported at the
    end of the day. *)
Definition cut_short : list Action :=
  [ImportFromCsv (Garbled (firstn 4 Examples.mixed_file)) this_month morning].

(** A refund entered as a negative expense, and an expense of nothing. *)
Definition refund_file : list string :=
  [Examples.header; "2024-01-11;Расход;Еда;-5;возврат"].

Definition free_file : list string :=
  [Examples.header; "2024-01-11;Расход;Еда;0;даром"].

End Cases.

(** ** Facts about strings and lists *)

Lemma str_ltb_lt (a b : string) : (a <? b)%string = true <-> String_as_OT.lt a b.
Proof.
  unfold String.ltb. rewrite <- String_as_OT.cmp_lt. unfold String_as_OT.cmp.
  destruct (a ?= b)%string; simpl; split; intros H; try reflexivity; discriminate H.
Qed.

Lemma str_ltb_trans (a b c : string) :
  (a <? b)%string = true -> (b <? c)%string = true -> (a <? c)%string = true.
Proof. rewrite !str_ltb_lt. apply String_as_OT.lt_trans. Qed.

Lemma str_ltb_irrefl (a : string) : (a <? a)%string = false.
Proof.
  destruct (a <? a)%string eqn:E; [| reflexivity].
  apply str_ltb_lt in E. exfalso. exact (String_as_OT.lt_not_eq _ _ E eq_refl).
Qed.

Lemma str_leb_ltb (a b : string) :
  (a <=? b)%string = true -> a <> b -> (a <? b)%string = true.
Proof.
  unfold String.leb, String.ltb. destruct (a ?= b)%string eqn:E; intros H Hne.
  - apply String.compare_eq_iff in E. contradiction.
  - reflexivity.
  - discriminate.
Qed.

Lemma str_leb_false (a b : string) : (a <=? b)%string = false -> (b <? a)%string = true.
Proof.
  unfold String.leb, String.ltb. rewrite (String.compare_antisym a b).
  destruct (b ?= a)%string; simpl; congruence.
Qed.

Lemma append_empty_r (s : string) : s ++ "" = s.
Proof. induction s as [| c s IH]; simpl; [reflexivity | now rewrite IH]. Qed.

Lemma append_assoc (a b c : string) : (a ++ b) ++ c = a ++ (b ++ c).
Proof. induction a as [| x a IH]; simpl; [reflexivity | now rewrite IH]. Qed.

Lemma split_nonempty (sep : ascii) (s : string) : PyStr.split sep s <> [].
Proof.
  destruct s as [| c s]; simpl; [discriminate |].
  destruct (Ascii.eqb c sep); [discriminate |].
  destruct (PyStr.split sep s); discriminate.
Qed.

(** Joining the fields with the separator gives the string back. *)
Lemma concat_split (sep : ascii) (s : string) :
  String.concat (String sep "") (PyStr.split sep s) = s.
Proof.
  induction s as [| c s IH]; simpl; [reflexivity |].
  pose proof (split_nonempty sep s) as Hne.
  destruct (PyStr.split sep s) as [| f fs]; [contradiction |].
  destruct (Ascii.eqb_spec c sep) as [-> |].
  - simpl in *. now rewrite IH.
  - destruct fs as [| g fs]; simpl in *; now rewrite <- IH.
Qed.

Lemma digit_char (c : ascii) :
  PyStr.is_digit c = true -> PyStr.char_of_digit (PyStr.digit_of c) = c /\ PyStr.digit_of c < 10.
Proof.
  destruct c as [[] [] [] [] [] [] [] []]; intros H; try discriminate H; split; try reflexivity;
    vm_compute; repeat constructor.
Qed.

Lemma zero_padded_snoc (w n d : nat) :
  d < 10 ->
  PyStr.zero_padded (S w) (10 * n + d)
  = PyStr.zero_padded w n ++ String (PyStr.char_of_digit d) "".
Proof.
  intros Hd.
  change (PyStr.zero_padded (S w) (10 * n + d))
    with (PyStr.zero_padded w ((10 * n + d) / 10)
          ++ String (PyStr.char_of_digit ((10 * n + d) mod 10)) "").
  replace ((10 * n + d) / 10) with n.
  - replace ((10 * n + d) mod 10) with d; [reflexivity |].
    rewrite Nat.add_comm, Nat.mul_comm, Nat.Div0.mod_add. symmetry. now apply Nat.mod_small.
  - rewrite Nat.add_comm, Nat.mul_comm, Nat.div_add by lia.
    rewrite Nat.div_small by exact Hd. reflexivity.
Qed.

Lemma zero_padded_digits_from (s : string) (acc n : N) (w : nat) :
  PyStr.digits_from acc s = Some n ->
  PyStr.zero_padded (String.length s + w) (N.to_nat n)
  = PyStr.zero_padded w (N.to_nat acc) ++ s.
Proof.
  revert acc w. induction s as [| c s IH]; intros acc w H.
  - simpl in H. injection H as <-. simpl. now rewrite append_empty_r.
  - change (PyStr.digits_from acc (String c s))
      with (if PyStr.is_digit c
            then PyStr.digits_from (10 * acc + N.of_nat (PyStr.digit_of c)) s
            else None) in H.
    destruct (PyStr.is_digit c) eqn:Hc; [| discriminate H].
    destruct (digit_char c Hc) as [Hchar Hlt].
    change (String.length (String c s) + w) with (S (String.length s + w)).
    rewrite <- Nat.add_succ_r, (IH _ (S w) H).
    replace (N.to_nat (10 * acc + N.of_nat (PyStr.digit_of c)))
      with (10 * N.to_nat acc + PyStr.digit_of c) by lia.
    rewrite (zero_padded_snoc _ _ _ Hlt), Hchar, append_assoc. reflexivity.
Qed.

(** A number read from digits, written on as many digits, is the string. *)
Lemma zero_padded_digits (s : string) (n : N) :
  PyStr.digits s = Some n -> PyStr.zero_padded (String.length s) (N.to_nat n) = s.
Proof.
  intros H. pose proof (zero_padded_digits_from s 0 n 0 H) as E.
  now rewrite Nat.add_0_r in E.
Qed.

Lemma length_append (a b : string) : String.length (a ++ b) = String.length a + String.length b.
Proof. induction a as [| c a IH]; simpl; [reflexivity | now rewrite IH]. Qed.

Lemma filter_filter_andb {A : Type} (p q : A -> bool) (l : list A) :
  filter p (filter q l) = filter (fun x => q x && p x) l.
Proof.
  induction l as [| x l IH]; simpl; [reflexivity |].
  destruct (q x); simpl; [destruct (p x) |]; rewrite ?IH; reflexivity.
Qed.

Lemma filter_partition {A : Type} (p : A -> bool) (l : list A) :
  Permutation (filter p l ++ filter (fun x => negb (p x)) l) l.
Proof.
  induction l as [| x l IH]; simpl; [constructor |].
  destruct (p x); simpl; [now constructor |].
  apply Permutation_sym, Permutation_cons_app, Permutation_sym. exact IH.
Qed.

Lemma map_flat_map_filter {A B : Type} (f : A -> B) (p : string -> A -> bool)
  (keys : list string) (l : list A) :
  flat_map (fun k => map f (filter (p k) l)) keys
  = map f (flat_map (fun k => filter (p k) l) keys).
Proof.
  induction keys as [| k keys IH]; simpl; [reflexivity |].
  now rewrite map_app, IH.
Qed.

(** A list taken apart by the keys of its elements, each key once, holds
    the same elements. *)
Lemma grouped_by_key {A : Type} (key : A -> string) (keys : list string) (l : list A) :
  NoDup keys -> (forall x, In x l -> In (key x) keys) ->
  Permutation (flat_map (fun k => filter (fun x => (key x =? k)%string) l) keys) l.
Proof.
  intros Hnd. revert l. induction Hnd as [| k keys Hk Hnd IH]; intros l Hall; simpl.
  - destruct l as [| x l]; [constructor |]. destruct (Hall x (or_introl eq_refl)).
  - set (rest := filter (fun x => negb (key x =? k)%string) l).
    assert (Hsame : flat_map (fun c => filter (fun x => (key x =? c)%string) l) keys
                    = flat_map (fun c => filter (fun x => (key x =? c)%string) rest) keys).
    { clear IH Hnd Hall. induction keys as [| c keys IHk]; simpl; [reflexivity |].
      rewrite IHk by (intros H; apply Hk; now right). f_equal.
      unfold rest. rewrite filter_filter_andb. apply filter_ext. intros x.
      destruct (key x =? c)%string eqn:Ec; [| now rewrite andb_false_r].
      apply String.eqb_eq in Ec.
      destruct (key x =? k)%string eqn:Ek; [| reflexivity].
      apply String.eqb_eq in Ek. elim Hk. left. congruence. }
    rewrite Hsame.
    apply Permutation_trans with (filter (fun x => (key x =? k)%string) l ++ rest)%list.
    + apply Permutation_app_head. apply IH. intros x Hx.
      unfold rest in Hx. apply filter_In in Hx. destruct Hx as [Hx Hne].
      destruct (Hall x Hx) as [Heq | Hin]; [| exact Hin].
      apply negb_true_iff, String.eqb_neq in Hne. congruence.
    + apply filter_partition.
Qed.

Lemma fold_left_when {A B : Type} (p : A -> bool) (f : B -> A -> B) (l : list A) (b : B) :
  fold_left (fun acc x => if p x then f acc x else acc) l b = fold_left f (filter p l) b.
Proof.
  revert b. induction l as [| x l IH]; intros b; simpl; [reflexivity |].
  destruct (p x); simpl; apply IH.
Qed.

(** ** Facts about dictionaries *)

Section DictFacts.
Context {V : Type}.
Implicit Types (d : dict V) (k : string) (v : V).

Lemma dict_get_set_same k v d : dict_get k (dict_set k v d) = Some v.
Proof.
  induction d as [| [k' v'] d IH]; simpl.
  - now rewrite String.eqb_refl.
  - destruct (k' =? k)%string eqn:E; simpl.
    + now rewrite String.eqb_refl.
    + now rewrite E.
Qed.

Lemma dict_get_set_other k k' v d :
  k <> k' -> dict_get k' (dict_set k v d) = dict_get k' d.
Proof.
  intros Hne. induction d as [| [k0 v0] d IH]; simpl.
  - apply String.eqb_neq in Hne. now rewrite Hne.
  - destruct (k0 =? k)%string eqn:E; simpl.
    + apply String.eqb_eq in E. subst k0.
      apply String.eqb_neq in Hne. now rewrite Hne.
    + now rewrite IH.
Qed.

Lemma dict_get_none k d : dict_get k d = None <-> ~ In k (dict_keys d).
Proof.
  induction d as [| [k' v'] d IH]; simpl.
  - tauto.
  - destruct (k' =? k)%string eqn:E.
    + apply String.eqb_eq in E. split; [discriminate | tauto].
    + apply String.eqb_neq in E. rewrite IH. tauto.
Qed.

Lemma dict_get_in k v d : dict_get k d = Some v -> In (k, v) d.
Proof.
  induction d as [| [k' v'] d IH]; simpl; [discriminate |].
  destruct (k' =? k)%string eqn:E.
  - apply String.eqb_eq in E. intros [= ->]. left. now subst.
  - auto.
Qed.

Lemma in_dict_get k v d : NoDup (dict_keys d) -> In (k, v) d -> dict_get k d = Some v.
Proof.
  induction d as [| [k' v'] d IH]; simpl; intros Hnd Hin; [contradiction |].
  inversion Hnd as [| ? ? Hnotin Hnd']; subst.
  destruct Hin as [[= -> ->] | Hin].
  - now rewrite String.eqb_refl.
  - destruct (k' =? k)%string eqn:E.
    + apply String.eqb_eq in E. subst k'. exfalso. apply Hnotin.
      change k with (fst (k, v)). now apply in_map.
    + now apply IH.
Qed.

Lemma dict_keys_set_in k v d :
  In k (dict_keys d) -> dict_keys (dict_set k v d) = dict_keys d.
Proof.
  induction d as [| [k' v'] d IH]; simpl; [contradiction |].
  intros Hin. destruct (k' =? k)%string eqn:E; simpl.
  - apply String.eqb_eq in E. now subst.
  - f_equal. apply IH. destruct Hin as [-> | Hin]; [| exact Hin].
    now rewrite String.eqb_refl in E.
Qed.

Lemma dict_keys_set_new k v d :
  ~ In k (dict_keys d) -> dict_keys (dict_set k v d) = (dict_keys d ++ [k])%list.
Proof.
  induction d as [| [k' v'] d IH]; simpl; [reflexivity |].
  intros Hnotin. destruct (k' =? k)%string eqn:E; simpl.
  - apply String.eqb_eq in E. tauto.
  - f_equal. apply IH. tauto.
Qed.

Lemma dict_keys_set_iff k k' v d :
  In k' (dict_keys (dict_set k v d)) <-> k' = k \/ In k' (dict_keys d).
Proof.
  destruct (in_dec string_dec k (dict_keys d)) as [Hin | Hnotin].
  - rewrite (dict_keys_set_in _ _ _ Hin). split; [tauto |].
    intros [-> | H]; assumption.
  - rewrite (dict_keys_set_new _ _ _ Hnotin), in_app_iff. simpl.
    split; [intros [H | [H | []]]; auto | intros [H | H]; auto].
Qed.

Lemma dict_set_nodup k v d : NoDup (dict_keys d) -> NoDup (dict_keys (dict_set k v d)).
Proof.
  intros Hnd. destruct (in_dec string_dec k (dict_keys d)) as [Hin | Hnotin].
  - now rewrite (dict_keys_set_in _ _ _ Hin).
  - rewrite (dict_keys_set_new _ _ _ Hnotin).
    apply NoDup_app; [exact Hnd | repeat constructor; simpl; tauto |].
    intros x Hx [<- | []]. contradiction.
Qed.

Lemma dd_get_update_same (default : V) k (f : V -> V) d :
  dd_get default k (dd_update default k f d) = f (dd_get default k d).
Proof. unfold dd_update. unfold dd_get at 1. now rewrite dict_get_set_same. Qed.

Lemma dd_get_update_other (default : V) k k' (f : V -> V) d :
  k <> k' -> dd_get default k' (dd_update default k f d) = dd_get default k' d.
Proof.
  intros Hne. unfold dd_update, dd_get. now rewrite dict_get_set_other.
Qed.

Lemma dict_get_dd_get (default : V) k d :
  In k (dict_keys d) -> dict_get k d = Some (dd_get default k d).
Proof.
  intros Hin. unfold dd_get. destruct (dict_get k d) eqn:E; [reflexivity |].
  apply dict_get_none in E. contradiction.
Qed.

Section Fold.
Context {T : Type} (default : V) (key : T -> string) (step : T -> V -> V).

Lemma dd_fold_get (ts : list T) d k :
  dd_get default k (dd_fold default key step ts d)
  = fold_left (fun v t => step t v) (filter (fun t => (key t =? k)%string) ts)
              (dd_get default k d).
Proof.
  revert d. induction ts as [| t ts IH]; intros d; simpl; [reflexivity |].
  unfold dd_fold in *. simpl. rewrite IH.
  destruct (key t =? k)%string eqn:E; simpl.
  - apply String.eqb_eq in E. subst k. now rewrite dd_get_update_same.
  - apply String.eqb_neq in E. now rewrite dd_get_update_other.
Qed.

Lemma dd_fold_keys (ts : list T) d k :
  In k (dict_keys (dd_fold default key step ts d))
  <-> In k (dict_keys d) \/ exists t, In t ts /\ key t = k.
Proof.
  revert d. induction ts as [| t ts IH]; intros d; simpl.
  - split; [auto | intros [H | (t & [] & _)]; exact H].
  - unfold dd_fold in *. simpl. rewrite IH. unfold dd_update.
    rewrite dict_keys_set_iff. split.
    + intros [[-> | H] | (t' & Hin & Hk)]; eauto.
    + intros [H | (t' & [<- | Hin] & Hk)]; eauto.
Qed.

Lemma dd_fold_nodup (ts : list T) d :
  NoDup (dict_keys d) -> NoDup (dict_keys (dd_fold default key step ts d)).
Proof.
  revert d. induction ts as [| t ts IH]; intros d Hnd; simpl; [exact Hnd |].
  unfold dd_fold in *. simpl. apply IH. now apply dict_set_nodup.
Qed.

End Fold.

Lemma insert_item_perm (x : string * V) (l : list (string * V)) :
  Permutation (insert_item x l) (x :: l).
Proof.
  induction l as [| y l IH]; simpl; [reflexivity |].
  destruct (fst x <=? fst y)%string; [reflexivity |].
  rewrite IH. apply perm_swap.
Qed.

Lemma sorted_items_perm d : Permutation (sorted_items d) d.
Proof.
  induction d as [| x d IH]; simpl; [reflexivity |].
  rewrite insert_item_perm. now constructor.
Qed.

Lemma insert_item_ascending (x : string * V) (l : list (string * V)) :
  StronglySorted (fun a b => (fst a <? fst b)%string = true) l ->
  ~ In (fst x) (map fst l) ->
  StronglySorted (fun a b => (fst a <? fst b)%string = true) (insert_item x l).
Proof.
  induction l as [| y l IH]; simpl; intros Hs Hnotin.
  - repeat constructor.
  - inversion Hs as [| ? ? Hs' Hall]; subst.
    destruct (fst x <=? fst y)%string eqn:E.
    + assert (Hxy : (fst x <? fst y)%string = true).
      { apply str_leb_ltb; [exact E | intros Heq; apply Hnotin; now left]. }
      constructor; [exact Hs |]. constructor; [exact Hxy |].
      eapply Forall_impl; [| exact Hall]. intros z Hz. simpl in Hz.
      eapply str_ltb_trans; eassumption.
    + apply str_leb_false in E. constructor.
      * apply IH; [exact Hs' | tauto].
      * eapply Permutation_Forall; [symmetry; apply insert_item_perm |].
        constructor; assumption.
Qed.

Lemma sorted_items_ascending d :
  NoDup (dict_keys d) ->
  StronglySorted (fun a b => (fst a <? fst b)%string = true) (sorted_items d).
Proof.
  induction d as [| x d IH]; simpl; intros Hnd; [constructor |].
  inversion Hnd as [| ? ? Hnotin Hnd']; subst.
  apply insert_item_ascending; [now apply IH |].
  intros Hin. apply Hnotin.
  eapply Permutation_in; [| exact Hin]. apply Permutation_map, sorted_items_perm.
Qed.

End DictFacts.

(** ** The ledger: recording and totals *)

Section Recording.
Context {R : Runtime}.

Lemma py_sum_app (xs : list num) (x : num) : py_sum (xs ++ [x]) = add (py_sum xs) x.
Proof. unfold py_sum. now rewrite fold_left_app. Qed.

(** Recording an income adds its amount to the income and leaves the
    expense as it was. *)
Lemma total_income_recorded (app : App) (t : Transaction) :
  tx_type t = income_type ->
  total_income (save_data (set_transactions (transactions app ++ [t]) app))
  = add (total_income app) (tx_amount t)
  /\ total_expense (save_data (set_transactions (transactions app ++ [t]) app))
     = total_expense app.
Proof.
  intros Ht. unfold total_income, total_expense, amounts, is_type. simpl.
  rewrite !filter_app. simpl. rewrite Ht. simpl.
  rewrite map_app, app_nil_r. simpl. split; [apply py_sum_app | reflexivity].
Qed.

(** C1: in every state of the ledger, [calculate_balance] is the total
    income minus the total expense, the two totals being the sums of the
    amounts of the transactions of type income and of type expense over the
    whole sequence; the balance card of the dashboard shows the same value. *)
Theorem balance_is_income_minus_expense (app : App) :
  calculate_balance app = sub (total_income app) (total_expense app)
  /\ total_income app
     = py_sum (map tx_amount
                   (filter (fun t => (tx_type t =? "Доход")%string) (transactions app)))
  /\ total_expense app
     = py_sum (map tx_amount
                   (filter (fun t => (tx_type t =? "Расход")%string) (transactions app)))
  /\ update_dashboard app = (calculate_balance app, total_income app, total_expense app).
Proof. repeat split. Qed.

(** C3: [add_transaction] parses the amount text with its commas turned to
    points.  If that parses, exactly one transaction is appended, carrying the
    parsed amount and the texts of the form, the other collections are as
    before and the document is saved; if it does not, the warning is shown
    and the transactions, limits, goals, payments and the file are
    unchanged. *)
Theorem add_transaction_amount (form : TransactionForm) (app : App) :
  match float_of_str (PyStr.replace "," "." (amount_input form)) with
  | Some amount =>
      transactions (add_transaction form app)
      = (transactions app
         ++ [mk_transaction (transaction_type_combo form) (category_combo form) amount
                            (date_edit form) (description_input form)])%list
      /\ budget_limits (add_transaction form app) = budget_limits app
      /\ saving_goals (add_transaction form app) = saving_goals app
      /\ regular_payments (add_transaction form app) = regular_payments app
      /\ data_json (add_transaction form app) = Some (document (add_transaction form app))
      /\ log (add_transaction form app)
         = (log app ++ [Saved (document (add_transaction form app))])%list
  | None =>
      transactions (add_transaction form app) = transactions app
      /\ budget_limits (add_transaction form app) = budget_limits app
      /\ saving_goals (add_transaction form app) = saving_goals app
      /\ regular_payments (add_transaction form app) = regular_payments app
      /\ data_json (add_transaction form app) = data_json app
      /\ log (add_transaction form app) = (log app ++ [Warning invalid_amount])%list
  end.
Proof.
  unfold add_transaction, parse_amount.
  destruct (float_of_str (PyStr.replace "," "." (amount_input form))) as [amount |];
    simpl; repeat split.
Qed.


End Recording.


(** What happens instead: the transaction is stored as entered. *)
Lemma foreign_category_stored :
  transactions (add_transaction Examples.foreign_category init)
  = [mk_transaction "Доход" "Еда" 100%float "2024-01-05" ""].
Proof. reflexivity. Qed.

(** ** The monthly series *)

Section Monthly.
Context {R : Runtime}.

Lemma StronglySorted_map {A B : Type} (P : B -> B -> Prop) (g : A -> B) (l : list A) :
  StronglySorted (fun a b => P (g a) (g b)) l -> StronglySorted P (map g l).
Proof.
  induction 1 as [| a l Hs IH Hall]; simpl; constructor; [exact IH |].
  apply Forall_map. exact Hall.
Qed.

Lemma month_key_parsed (t : Transaction) :
  strptime_ymd (tx_date t) <> None -> month_key t = Some (month_of t).
Proof.
  unfold month_of, month_key. destruct (strptime_ymd (tx_date t)); simpl; congruence.
Qed.

Lemma in_month_parsed (key : string) (t : Transaction) :
  strptime_ymd (tx_date t) <> None -> in_month key t = (month_of t =? key)%string.
Proof.
  intros H. unfold in_month. now rewrite (month_key_parsed t H).
Qed.

(** With every date readable the loop of [update_chart] is a plain
    accumulation by month. *)
Lemma months_loop_dd_fold (ts : list Transaction) (months : dict MonthTotals) :
  Forall (fun t => strptime_ymd (tx_date t) <> None) ts ->
  months_loop ts months
  = Some (dd_fold (mk_month zero zero) month_of add_to_month ts months).
Proof.
  intros Hall. revert months.
  induction Hall as [| t ts Ht Hall IH]; intros months; simpl; [reflexivity |].
  rewrite (month_key_parsed t Ht). unfold dd_fold in *. simpl. apply IH.
Qed.

(** A date that cannot be read stops the loop. *)
Lemma months_loop_unreadable (ts : list Transaction) (months : dict MonthTotals) :
  Exists (fun t => strptime_ymd (tx_date t) = None) ts -> months_loop ts months = None.
Proof.
  intros Hex. revert months.
  induction Hex as [t ts Ht | t ts Hex IH]; intros months; simpl.
  - unfold month_key. now rewrite Ht.
  - destruct (month_key t); [apply IH | reflexivity].
Qed.

Lemma fold_add_to_month (l : list Transaction) (m : MonthTotals) :
  income (fold_left (fun v t => add_to_month t v) l m)
  = fold_left add (amounts (filter (is_type income_type) l)) (income m)
  /\ expense (fold_left (fun v t => add_to_month t v) l m)
     = fold_left add (amounts (filter (fun t => negb (is_type income_type t)) l))
                 (expense m).
Proof.
  revert m. induction l as [| t l IH]; intros m; simpl; [split; reflexivity |].
  destruct (IH (add_to_month t m)) as [Hinc Hexp]. rewrite Hinc, Hexp.
  unfold add_to_month. destruct (is_type income_type t); simpl; split; reflexivity.
Qed.

Lemma not_income_is_expense (t : Transaction) :
  valid_type t -> negb (is_type income_type t) = is_type expense_type t.
Proof.
  unfold valid_type, is_type. intros [-> | ->]; reflexivity.
Qed.

(** The entries of the series, when every date can be read. *)
Lemma monthly_series_entries (app : App) :
  Forall (fun t => strptime_ymd (tx_date t) <> None) (transactions app) ->
  exists series,
    monthly_series app = Some series
    /\ ascending (fun e => fst (fst e)) series
    /\ (forall key, In key (map (fun e => fst (fst e)) series)
                    <-> exists t, In t (transactions app) /\ month_key t = Some key)
    /\ (forall key inc exp, In (key, inc, exp) series ->
          inc = py_sum (amounts (filter (fun t => in_month key t && is_type income_type t)
                                        (transactions app)))
          /\ exp = py_sum (amounts (filter (fun t => in_month key t
                                                     && negb (is_type income_type t))
                                           (transactions app)))
          /\ (Forall valid_type (transactions app) ->
              exp = py_sum (amounts (filter (fun t => in_month key t
                                                      && is_type expense_type t)
                                            (transactions app))))).
Proof.
  intros Hdates.
  set (ts := transactions app) in *.
  set (months := dd_fold (mk_month zero zero) month_of add_to_month ts []).
  assert (Hloop : months_loop ts [] = Some months) by now apply months_loop_dd_fold.
  assert (Hnd : NoDup (dict_keys months)) by (apply dd_fold_nodup; constructor).
  assert (Hfilter : forall key (p : Transaction -> bool),
             filter p (filter (fun t => (month_of t =? key)%string) ts)
             = filter (fun t => in_month key t && p t) ts).
  { intros key p. rewrite filter_filter_andb. apply filter_ext_in.
    intros t Ht. rewrite in_month_parsed; [reflexivity |].
    exact (proj1 (Forall_forall _ _) Hdates t Ht). }
  exists (map (fun m => (fst m, income (snd m), expense (snd m))) (sorted_items months)).
  split; [| split; [| split]].
  - unfold monthly_series, sorted_months. fold ts. now rewrite Hloop.
  - apply StronglySorted_map. simpl. now apply sorted_items_ascending.
  - intros key. rewrite map_map. simpl.
    assert (Hkeys : In key (map (fun x : string * MonthTotals => fst x) (sorted_items months))
                    <-> In key (dict_keys months)).
    { split; apply Permutation_in; apply Permutation_map;
        [| symmetry]; apply sorted_items_perm. }
    rewrite Hkeys. unfold months. rewrite dd_fold_keys. simpl. split.
    + intros [[] | (t & Hin & Hk)]. exists t. split; [exact Hin |].
      rewrite <- Hk. apply month_key_parsed.
      exact (proj1 (Forall_forall _ _) Hdates t Hin).
    + intros (t & Hin & Hk). right. exists t. split; [exact Hin |].
      rewrite (month_key_parsed t (proj1 (Forall_forall _ _) Hdates t Hin)) in Hk.
      congruence.
  - intros key inc exp Hin. apply in_map_iff in Hin.
    destruct Hin as ([k m] & Heq & Hin). simpl in Heq. injection Heq as -> <- <-.
    apply (Permutation_in _ (sorted_items_perm months)) in Hin.
    assert (Hget : dict_get key months = Some m) by now apply in_dict_get.
    assert (Hkey : In key (dict_keys months)).
    { change key with (fst (key, m)). now apply in_map. }
    rewrite (dict_get_dd_get (mk_month zero zero) key months Hkey) in Hget.
    injection Hget as <-. unfold months. rewrite dd_fold_get.
    destruct (fold_add_to_month (filter (fun t => (month_of t =? key)%string) ts)
                                (dd_get (mk_month zero zero) key [])) as [Hinc Hexp].
    rewrite Hinc, Hexp. simpl. rewrite !Hfilter. unfold py_sum.
    split; [reflexivity | split; [reflexivity |]].
    intros Hvalid. do 2 f_equal. apply filter_ext_in. intros t Ht.
    now rewrite (not_income_is_expense t (proj1 (Forall_forall _ _) Hvalid t Ht)).
Qed.


(** C4, as the code has it: for transactions whose type is income or
    expense and whose date [strptime] reads with the month being the first
    seven characters, [monthly_series] exists, groups the transactions by
    that prefix, ascends strictly in the month key, and every entry holds the
    sum of the amounts of the income transactions and the sum of the amounts
    of the expense transactions of its month. *)
Theorem monthly_series_by_month (app : App) :
  Forall valid_type (transactions app) ->
  Forall (fun t => month_key t = Some (substring 0 7 (tx_date t))) (transactions app) ->
  monthly_series_claim app.
Proof.
  intros Hvalid Hprefix.
  assert (Hdates : Forall (fun t => strptime_ymd (tx_date t) <> None) (transactions app)).
  { eapply Forall_impl; [| exact Hprefix]. intros t Ht. simpl in Ht.
    unfold month_key in Ht. now destruct (strptime_ymd (tx_date t)). }
  destruct (monthly_series_entries app Hdates) as (series & Hs & Hasc & Hkeys & Hsums).
  assert (Hmonth : forall key t, In t (transactions app) ->
                                 in_month key t = has_prefix key t).
  { intros key t Hin. unfold in_month, has_prefix.
    now rewrite (proj1 (Forall_forall _ _) Hprefix t Hin). }
  exists series. split; [exact Hs |]. split; [exact Hasc |]. split.
  - intros key. rewrite Hkeys. split; intros (t & Hin & Hk); exists t; split; trivial.
    + rewrite (proj1 (Forall_forall _ _) Hprefix t Hin) in Hk. congruence.
    + rewrite (proj1 (Forall_forall _ _) Hprefix t Hin). congruence.
  - intros key inc exp Hin. destruct (Hsums key inc exp Hin) as (Hinc & _ & Hexp).
    rewrite Hinc, (Hexp Hvalid). unfold py_sum, amounts.
    split; do 2 f_equal; apply filter_ext_in; intros t Ht; now rewrite (Hmonth key t Ht).
Qed.

End Monthly.

(** On a ten-character date that [strptime] reads, the month is the prefix. *)
Lemma iso_month_prefix (s : string) (d : datetime) :
  Binary64.strptime_ymd s = Some d -> String.length s = 10 ->
  Binary64.strftime_ym d = substring 0 7 s.
Proof.
  unfold Binary64.strptime_ymd. intros H Hlen.
  pose proof (concat_split "-" s) as Hjoin.
  destruct (PyStr.split "-" s) as [| y [| m [| dd [| ? ?]]]]; try discriminate H.
  simpl in Hjoin.
  destruct (Binary64.year_field y) as [yy |] eqn:Hy; [| discriminate H].
  destruct (Binary64.month_field m) as [mm |] eqn:Hm; [| discriminate H].
  destruct (Binary64.day_field dd) as [dv |] eqn:Hd; [| discriminate H].
  destruct ((1 <=? yy)%nat && (dv <=? Binary64.days_in_month yy mm)%nat); [| discriminate H].
  injection H as <-. unfold Binary64.strftime_ym. simpl dt_year. simpl dt_month.
  unfold Binary64.year_field in Hy.
  destruct (String.length y =? 4)%nat eqn:Hly; [| discriminate Hy].
  apply Nat.eqb_eq in Hly.
  destruct (PyStr.digits y) as [ny |] eqn:Hdy; [| discriminate Hy].
  simpl in Hy. injection Hy as <-.
  unfold Binary64.month_field in Hm.
  destruct (PyStr.digits m) as [nm |] eqn:Hdm; [| discriminate Hm].
  destruct ((1 <=? String.length m)%nat && (String.length m <=? 2)%nat
            && (1 <=? N.to_nat nm)%nat && (N.to_nat nm <=? 12)%nat) eqn:Hcm; [| discriminate Hm].
  injection Hm as <-.
  apply andb_prop in Hcm. destruct Hcm as [Hcm _].
  apply andb_prop in Hcm. destruct Hcm as [Hcm _].
  apply andb_prop in Hcm. destruct Hcm as [Hm1 Hm2].
  apply Nat.leb_le in Hm1, Hm2.
  assert (Hld : String.length dd <= 2).
  { unfold Binary64.day_field in Hd.
    destruct dd as [| c1 [| c2 [| c3 dd]]]; simpl; try lia.
    exfalso.
    assert (Hbody : (match String c1 (String c2 (String c3 dd)) with
              | String " " (String c EmptyString) => String c EmptyString
              | _ => String c1 (String c2 (String c3 dd))
              end) = String c1 (String c2 (String c3 dd))).
    { destruct c1 as [[] [] [] [] [] [] [] []]; reflexivity. }
    rewrite Hbody in Hd.
    destruct (PyStr.digits (String c1 (String c2 (String c3 dd)))); [| discriminate Hd].
    cbv zeta in Hd.
    match type of Hd with
    | (if ?b then _ else _) = _ => destruct b eqn:Hb; [| discriminate Hd]
    end.
    apply andb_prop in Hb. destruct Hb as [Hb _].
    apply andb_prop in Hb. destruct Hb as [Hb _].
    apply andb_prop in Hb. destruct Hb as [_ Hb].
    apply Nat.leb_le in Hb. simpl in Hb. lia. }
  assert (Hlm : String.length m = 2).
  { rewrite <- Hjoin in Hlen.
    rewrite length_append in Hlen. simpl in Hlen.
    rewrite length_append in Hlen. simpl in Hlen. lia. }
  rewrite <- Hly at 1. rewrite (zero_padded_digits y ny Hdy).
  rewrite <- Hlm at 1. rewrite (zero_padded_digits m nm Hdm).
  rewrite <- Hjoin.
  destruct y as [| y1 [| y2 [| y3 [| y4 [| ? ?]]]]]; try discriminate Hly.
  destruct m as [| m1 [| m2 [| ? ?]]]; try discriminate Hlm.
  reflexivity.
Qed.

(** The same for the month of a transaction. *)
Lemma iso_month_key (t : @Transaction Binary64) :
  strptime_ymd (tx_date t) <> None -> String.length (tx_date t) = 10 ->
  month_key t = Some (substring 0 7 (tx_date t)).
Proof.
  intros Hparse Hlen. unfold month_key.
  destruct (strptime_ymd (tx_date t)) as [d |] eqn:E; [| contradiction].
  simpl. f_equal. now apply iso_month_prefix.
Qed.

(** The three transactions of the worked example are of the two types and
    carry zero-padded dates; their series is as the specification words
    it. *)
Lemma monthly_series_by_month_witness :
  Forall valid_type (transactions Examples.ledger)
  /\ Forall (fun t => month_key t = Some (substring 0 7 (tx_date t)))
            (transactions Examples.ledger)
  /\ monthly_series_claim Examples.ledger.
Proof.
  assert (Hvalid : Forall valid_type (transactions Examples.ledger)).
  { repeat (apply Forall_cons; [(left; reflexivity) || (right; reflexivity) |]).
    apply Forall_nil. }
  assert (Hprefix : Forall (fun t => month_key t = Some (substring 0 7 (tx_date t)))
                           (transactions Examples.ledger)).
  { repeat (apply Forall_cons;
            [apply iso_month_key;
             [intros H; vm_compute in H; discriminate H | reflexivity] |]).
    apply Forall_nil. }
  split; [exact Hvalid |]. split; [exact Hprefix |].
  exact (monthly_series_by_month Examples.ledger Hvalid Hprefix).
Defined.

(** The totals of the worked example: income 1000, expense 250, balance
    750. *)
Lemma totals_example :
  update_dashboard Examples.ledger = (750%float, 1000%float, 250%float)
  /\ calculate_balance Examples.ledger = 750%float.
Proof. split; reflexivity. Qed.

(** The series of the worked example. *)
Lemma monthly_series_example :
  monthly_series Examples.ledger
  = Some [("2024-01", 1000%float, 200%float); ("2024-02", 0%float, 50%float)].
Proof. reflexivity. Qed.

(** C4, refuted as stated: after the import of a row of type ["Перевод"] the
    entry of March shows an expense of 5, while no transaction of that month
    is of type expense. *)
Lemma monthly_series_counts_transfer_as_expense :
  ~ monthly_series_claim Examples.transfer_ledger.
Proof.
  intros (series & Hs & _ & _ & Hsum).
  assert (E : monthly_series Examples.transfer_ledger
              = Some [("2024-03", 0%float, 5%float)]) by reflexivity.
  rewrite E in Hs. injection Hs as <-.
  destruct (Hsum "2024-03" 0%float 5%float (or_introl eq_refl)) as [_ Hexp].
  assert (E' : py_sum (amounts (filter (fun t => has_prefix "2024-03" t
                                                && is_type expense_type t)
                                       (transactions Examples.transfer_ledger)))
               = 0%float) by reflexivity.
  rewrite E' in Hexp.
  assert (H : PrimFloat.eqb 5 5 = PrimFloat.eqb 0 5) by (f_equal; exact Hexp).
  vm_compute in H. discriminate H.
Qed.

(** ** The breakdown by category *)

Section Breakdown.
Context {R : Runtime}.

Lemma fold_left_amounts (l : list Transaction) (a : num) :
  fold_left (fun v t => add v (tx_amount t)) l a = fold_left add (amounts l) a.
Proof.
  revert a. induction l as [| t l IH]; intros a; simpl; [reflexivity | apply IH].
Qed.

Lemma categories_of_dd_fold (ty : string) (app : App) :
  categories_of ty app
  = dd_fold zero tx_category (fun t v => add v (tx_amount t))
            (filter (is_type ty) (transactions app)) [].
Proof.
  unfold categories_of, dd_fold, dd_add.
  exact (fold_left_when (is_type ty)
           (fun d t => dd_update zero (tx_category t) (fun v => add v (tx_amount t)) d)
           (transactions app) []).
Qed.

(** The keys of the breakdown: the categories of the transactions of the
    type, each once. *)
Lemma categories_of_keys (ty : string) (app : App) (category : string) :
  In category (dict_keys (categories_of ty app))
  <-> exists t, In t (transactions app) /\ tx_type t = ty /\ tx_category t = category.
Proof.
  rewrite categories_of_dd_fold, dd_fold_keys. simpl. split.
  - intros [[] | (t & Hin & Hc)]. apply filter_In in Hin. destruct Hin as [Hin Hty].
    exists t. repeat split; [exact Hin | now apply String.eqb_eq | exact Hc].
  - intros (t & Hin & Hty & Hc). right. exists t. split; [| exact Hc].
    apply filter_In. split; [exact Hin | now apply String.eqb_eq].
Qed.

Lemma categories_of_nodup (ty : string) (app : App) :
  NoDup (dict_keys (categories_of ty app)).
Proof. rewrite categories_of_dd_fold. apply dd_fold_nodup. constructor. Qed.

(** The value of a category: the sum, from left to right, of the amounts
    of its transactions of the type. *)
Lemma categories_of_value (ty : string) (app : App) (category : string) (v : num) :
  In (category, v) (categories_of ty app) ->
  v = py_sum (amounts (filter (fun t => is_type ty t && (tx_category t =? category)%string)
                              (transactions app))).
Proof.
  intros Hin.
  assert (Hkey : In category (dict_keys (categories_of ty app))).
  { change category with (fst (category, v)). now apply in_map. }
  apply (in_dict_get _ _ _ (categories_of_nodup ty app)) in Hin.
  rewrite (dict_get_dd_get zero _ _ Hkey) in Hin. injection Hin as <-.
  rewrite categories_of_dd_fold, dd_fold_get, fold_left_amounts, filter_filter_andb.
  reflexivity.
Qed.

Section Whole.
Variables (bound : Z) (repr : Z -> num).
Hypothesis Hexact : adds_exactly_up_to bound repr.

Lemma total_nonneg (l : list Z) : Forall (fun n => (0 <= n)%Z) l -> (0 <= total l)%Z.
Proof. induction 1 as [| n l Hn _ IH]; simpl; lia. Qed.

Lemma fold_add_repr (l : list Z) (n : Z) :
  (0 <= n)%Z -> Forall (fun m => (0 <= m)%Z) l -> (n + total l <= bound)%Z ->
  fold_left add (map repr l) (repr n) = repr (n + total l)%Z.
Proof.
  intros Hn Hl. revert n Hn.
  induction Hl as [| m l Hm Hl IH]; intros n Hn Hb; simpl in *.
  - now rewrite Z.add_0_r.
  - pose proof (total_nonneg l Hl) as Ht.
    rewrite (proj2 Hexact n m Hn Hm) by lia.
    rewrite IH by lia. f_equal. lia.
Qed.

Lemma dict_get_repr (k : string) (d : dict Z) :
  dict_get k (repr_dict repr d) = option_map repr (dict_get k d).
Proof.
  induction d as [| [k' v] d IH]; simpl; [reflexivity |].
  now destruct (k' =? k)%string.
Qed.

Lemma dict_set_repr (k : string) (n : Z) (d : dict Z) :
  dict_set k (repr n) (repr_dict repr d) = repr_dict repr (dict_set k n d).
Proof.
  induction d as [| [k' v] d IH]; simpl; [reflexivity |].
  destruct (k' =? k)%string; simpl; [reflexivity | now rewrite IH].
Qed.

Lemma dict_values_repr (d : dict Z) : dict_values (repr_dict repr d) = map repr (dict_values d).
Proof. unfold dict_values, repr_dict. rewrite !map_map. reflexivity. Qed.

Lemma dict_get_total (k : string) (v : Z) (d : dict Z) :
  Forall (fun n => (0 <= n)%Z) (dict_values d) -> dict_get k d = Some v ->
  (0 <= v <= total (dict_values d))%Z.
Proof.
  induction d as [| [k' v'] d IH]; simpl; intros Hall Hget; [discriminate Hget |].
  inversion Hall as [| n l Hn Hl]; subst.
  pose proof (total_nonneg _ Hl) as Ht. unfold dict_values in *.
  destruct (k' =? k)%string.
  - injection Hget as <-. simpl in *. lia.
  - specialize (IH Hl Hget). simpl in *. lia.
Qed.

Lemma dict_set_total (k : string) (u : Z) (d : dict Z) :
  total (dict_values (dd_update 0%Z k (fun v => (v + u)%Z) d))
  = (total (dict_values d) + u)%Z.
Proof.
  unfold dd_update, dd_get, dict_values.
  induction d as [| [k' v'] d IH]; simpl; [lia |].
  destruct (k' =? k)%string; simpl; lia.
Qed.

Lemma dict_set_nonneg (k : string) (u : Z) (d : dict Z) :
  (0 <= u)%Z -> Forall (fun n => (0 <= n)%Z) (dict_values d) ->
  Forall (fun n => (0 <= n)%Z) (dict_values (dd_update 0%Z k (fun v => (v + u)%Z) d)).
Proof.
  intros Hu. unfold dd_update, dd_get, dict_values.
  induction d as [| [k' v'] d IH]; simpl; intros Hall.
  - constructor; [lia | constructor].
  - inversion Hall as [| n l Hn Hl]; subst.
    destruct (k' =? k)%string; simpl.
    + constructor; [lia | exact Hl].
    + constructor; [exact Hn | exact (IH Hl)].
Qed.

(** One [+=] of the breakdown, in units. *)
Lemma dd_add_repr (k : string) (u : Z) (d : dict Z) :
  (0 <= u)%Z -> Forall (fun n => (0 <= n)%Z) (dict_values d) ->
  (total (dict_values d) + u <= bound)%Z ->
  dd_add k (repr u) (repr_dict repr d) = repr_dict repr (dd_update 0%Z k (fun v => (v + u)%Z) d).
Proof.
  intros Hu Hall Hb. unfold dd_add, dd_update, dd_get. rewrite dict_get_repr.
  destruct (dict_get k d) as [v |] eqn:E; simpl.
  - destruct (dict_get_total k v d Hall E) as [Hv Hle].
    rewrite (proj2 Hexact v u Hv Hu) by lia. apply dict_set_repr.
  - pose proof (total_nonneg _ Hall) as Ht.
    rewrite <- (proj1 Hexact), (proj2 Hexact 0%Z u) by lia. apply dict_set_repr.
Qed.

(** The loop of the breakdown, in units. *)
Lemma dd_fold_repr (units : Transaction -> Z) (ts : list Transaction) (d : dict Z) :
  Forall (fun t => (0 <= units t)%Z /\ tx_amount t = repr (units t)) ts ->
  Forall (fun n => (0 <= n)%Z) (dict_values d) ->
  (total (dict_values d) + total (map units ts) <= bound)%Z ->
  exists d',
    dd_fold zero tx_category (fun t v => add v (tx_amount t)) ts (repr_dict repr d)
    = repr_dict repr d'
    /\ Forall (fun n => (0 <= n)%Z) (dict_values d')
    /\ total (dict_values d') = (total (dict_values d) + total (map units ts))%Z.
Proof.
  intros Hts. revert d.
  induction Hts as [| t ts [Hu Ht] Hts IH]; intros d Hall Hb; simpl in *.
  - exists d. repeat split; [exact Hall | lia].
  - assert (Hrest : (0 <= total (map units ts))%Z).
    { apply total_nonneg. apply Forall_map.
      eapply Forall_impl; [| exact Hts]. now intros t' [H _]. }
    unfold dd_fold in *. simpl.
    change (dd_update zero (tx_category t) (fun v => add v (tx_amount t)) (repr_dict repr d))
      with (dd_add (tx_category t) (tx_amount t) (repr_dict repr d)).
    rewrite Ht, (dd_add_repr _ _ _ Hu Hall) by lia.
    destruct (IH (dd_update 0%Z (tx_category t) (fun v => (v + units t)%Z) d))
      as (d' & Hd' & Hall' & Htotal).
    + now apply dict_set_nonneg.
    + rewrite dict_set_total. lia.
    + exists d'. repeat split; [exact Hd' | exact Hall' |].
      rewrite Htotal, dict_set_total. lia.
Qed.

(** Where every expense is a whole number of units and addition is exact
    on them up to their total, the values of the breakdown add up to the total
    expense. *)
Lemma whole_expenses_add_up (units : Transaction -> Z) (app : App) :
  whole_expenses bound repr units app ->
  sum_values (expense_categories app) = total_expense app.
Proof.
  intros [Hall Hb].
  assert (Hnonneg : Forall (fun n => (0 <= n)%Z) (map units (expenses app))).
  { apply Forall_map. eapply Forall_impl; [| exact Hall]. now intros t [H _]. }
  unfold expense_categories. rewrite categories_of_dd_fold.
  destruct (dd_fold_repr units (expenses app) [] Hall) as (d' & Hd' & Hall' & Htotal).
  { constructor. }
  { simpl. exact Hb. }
  change (filter (is_type expense_type) (transactions app)) with (expenses app).
  change (@nil (string * num)) with (repr_dict repr []). rewrite Hd'.
  unfold sum_values, total_expense, py_sum.
  change (filter (is_type expense_type) (transactions app)) with (expenses app).
  rewrite dict_values_repr.
  assert (Hamounts : amounts (expenses app) = map repr (map units (expenses app))).
  { unfold amounts. rewrite map_map. apply map_ext_in. intros t Ht.
    exact (proj2 (proj1 (Forall_forall _ _) Hall t Ht)). }
  rewrite Hamounts, <- (proj1 Hexact).
  rewrite (fold_add_repr _ 0%Z) by (try lia; try assumption; simpl in Htotal; lia).
  rewrite (fold_add_repr _ 0%Z) by (try lia; assumption).
  f_equal. simpl in Htotal. lia.
Qed.

End Whole.

(** C5, as the code has it: the breakdown of the expenses has exactly the
    categories of the expense transactions, each once, each with the sum,
    from left to right, of the amounts of its expenses; taken together the
    categories add the amounts that the total expense adds, each once.  The
    values add up to the total expense whenever the expenses are whole
    numbers of a unit, none negative, and addition is exact on such numbers
    up to the total of the expenses. *)
Theorem expense_breakdown_exact (app : App) :
  (forall category, In category (dict_keys (expense_categories app))
                    <-> exists t, In t (transactions app)
                                  /\ tx_type t = expense_type /\ tx_category t = category)
  /\ NoDup (dict_keys (expense_categories app))
  /\ (forall category v, In (category, v) (expense_categories app) ->
        v = py_sum (amounts (filter (fun t => is_type expense_type t
                                              && (tx_category t =? category)%string)
                                    (transactions app))))
  /\ Permutation
       (flat_map (fun category =>
                    summed (fun t => is_type expense_type t
                                     && (tx_category t =? category)%string) app)
                 (dict_keys (expense_categories app)))
       (summed (is_type expense_type) app)
  /\ total_expense app = py_sum (summed (is_type expense_type) app)
  /\ (forall (bound : Z) (repr : Z -> num) (units : Transaction -> Z),
        adds_exactly_up_to bound repr ->
        whole_expenses bound repr units app ->
        sum_values (expense_categories app) = total_expense app).
Proof.
  split; [| split; [| split; [| split; [| split]]]].
  - intros category. apply categories_of_keys.
  - apply categories_of_nodup.
  - intros category v. apply categories_of_value.
  - unfold summed, amounts.
    assert (E : forall category,
               filter (fun t => is_type expense_type t
                                && (tx_category t =? category)%string) (transactions app)
               = filter (fun t => (tx_category t =? category)%string) (expenses app)).
    { intros category. unfold expenses. now rewrite filter_filter_andb. }
    rewrite (flat_map_ext _ _ (fun category => f_equal (map tx_amount) (E category))).
    rewrite (map_flat_map_filter tx_amount
               (fun category t => (tx_category t =? category)%string)).
    apply Permutation_map. apply grouped_by_key; [apply categories_of_nodup |].
    intros t Ht. apply filter_In in Ht. destruct Ht as [Ht Hty].
    apply categories_of_keys. exists t.
    repeat split; [exact Ht | now apply String.eqb_eq].
  - reflexivity.
  - intros bound repr units Hexact Hwhole.
    exact (whole_expenses_add_up bound repr Hexact units app Hwhole).
Qed.

End Breakdown.

(** Doubles add whole fifties exactly, at least up to six of them, and the
    breakdown of expenses of 200, 50 and 50 in two categories adds up. *)
Lemma expense_breakdown_exact_witness :
  adds_exactly_up_to 6 Examples.fifties
  /\ whole_expenses 6 Examples.fifties Examples.in_fifties Examples.whole_ledger
  /\ expense_categories Examples.whole_ledger = [("Еда", 250%float); ("Транспорт", 50%float)]
  /\ sum_values (expense_categories Examples.whole_ledger)
     = total_expense Examples.whole_ledger.
Proof.
  assert (Hexact : adds_exactly_up_to 6 Examples.fifties).
  { split; [reflexivity |]. intros n m Hn Hm Hb.
    assert (Hn' : (n = 0 \/ n = 1 \/ n = 2 \/ n = 3 \/ n = 4 \/ n = 5 \/ n = 6)%Z) by lia.
    assert (Hm' : (m = 0 \/ m = 1 \/ m = 2 \/ m = 3 \/ m = 4 \/ m = 5 \/ m = 6)%Z) by lia.
    destruct Hn' as [-> | [-> | [-> | [-> | [-> | [-> | ->]]]]]];
      destruct Hm' as [-> | [-> | [-> | [-> | [-> | [-> | ->]]]]]];
      first [reflexivity | exfalso; lia]. }
  assert (Hwhole : whole_expenses 6 Examples.fifties Examples.in_fifties
                                  Examples.whole_ledger).
  { split.
    - repeat (apply Forall_cons; [split; [discriminate | reflexivity] |]).
      apply Forall_nil.
    - discriminate. }
  split; [exact Hexact |]. split; [exact Hwhole |]. split; [reflexivity |].
  exact (proj2 (proj2 (proj2 (proj2 (proj2 (expense_breakdown_exact
                                              Examples.whole_ledger)))))
               6%Z Examples.fifties Examples.in_fifties Hexact Hwhole).
Defined.

(** The breakdown of the worked example. *)
Lemma expense_categories_example :
  expense_categories Examples.ledger = [("Еда", 250%float)]
  /\ total_expense Examples.ledger = 250%float.
Proof. split; reflexivity. Qed.

(** Three expenses of 0.1, 0.1 and 1: the total is 1.2, the categories hold
    1.1 and 0.1. *)
Lemma rounding_example :
  total_expense Examples.rounding_ledger = 0x1.3333333333333p+0%float
  /\ expense_categories Examples.rounding_ledger
     = [("Еда", 0x1.199999999999ap+0%float); ("Транспорт", 0x1.999999999999ap-4%float)]
  /\ sum_values (expense_categories Examples.rounding_ledger) = 0x1.3333333333334p+0%float.
Proof. repeat split; reflexivity. Qed.

(** C5, refuted as stated: on doubles the values of the breakdown add up to
    1.2000000000000002 where the total expense is 1.2. *)
Lemma breakdown_differs_from_total :
  ~ breakdown_claim Examples.rounding_ledger.
Proof.
  intros [_ Hsum].
  assert (H : PrimFloat.eqb (sum_values (expense_categories Examples.rounding_ledger))
                            (total_expense Examples.rounding_ledger)
              = PrimFloat.eqb (total_expense Examples.rounding_ledger)
                              (total_expense Examples.rounding_ledger)).
  { now rewrite Hsum. }
  vm_compute in H. discriminate H.
Qed.

(** Adding the two values in the other order does not help. *)
Lemma breakdown_differs_in_either_order :
  PrimFloat.eqb (PrimFloat.add (PrimFloat.add 0 0x1.999999999999ap-4) 0x1.199999999999ap+0)
                (total_expense Examples.rounding_ledger) = false.
Proof. reflexivity. Qed.

(** ** The budget table and the goals table *)

Section Tables.
Context {R : Runtime}.

(** C6: the budget table has one row for every category with a limit, in
    the order of the limits; the row reports as spent the sum of the amounts
    of all the expense transactions of that category in the whole history,
    and it is marked as over the limit exactly when the spent amount is
    greater than the limit. *)
Theorem budget_table_rows (app : App) :
  map row_category (update_budget_limits_table app) = dict_keys (budget_limits app)
  /\ (forall category limit, In (category, limit) (budget_limits app) ->
        In (mk_budget_row category limit (spent_in app category)
                          (gt (spent_in app category) limit))
           (update_budget_limits_table app))
  /\ (forall row, In row (update_budget_limits_table app) ->
        In (row_category row, row_limit row) (budget_limits app)
        /\ row_spent row
           = py_sum (map tx_amount
                         (filter (fun t => (tx_type t =? "Расход")%string
                                           && (tx_category t =? row_category row)%string)
                                 (transactions app)))
        /\ (row_over row = true <-> gt (row_spent row) (row_limit row) = true)).
Proof.
  unfold update_budget_limits_table. split; [| split].
  - unfold dict_keys. rewrite map_map. apply map_ext. now intros [c l].
  - intros category limit Hin.
    apply in_map_iff. exists (category, limit). split; [reflexivity | exact Hin].
  - intros row Hin. apply in_map_iff in Hin. destruct Hin as ([c l] & <- & Hin).
    simpl. repeat split; auto.
Qed.

(** C7: the progress shown for a goal is saved / amount * 100 when the
    amount is greater than 0 and 0 otherwise, and its colour is that of the
    band: complete from 100, near from 75, behind below.  The table is read
    off the goals alone; nothing is stored. *)
Theorem goals_table_progress (app : App) :
  update_goals_table app
  = map (fun goal => mk_goal_row (goal_name goal) (goal_amount goal) (goal_target_date goal)
                                 (goal_progress goal)
                                 (band_colour (band_of (goal_progress goal))))
        (saving_goals app)
  /\ (forall goal,
        (gt (goal_amount goal) (int_lit 0) = true ->
         goal_progress goal
         = mul (true_div (goal_saved goal) (goal_amount goal)) (int_lit 100))
        /\ (gt (goal_amount goal) (int_lit 0) = false -> goal_progress goal = int_lit 0))
  /\ (forall progress,
        (ge progress (int_lit 100) = true -> band_of progress = Complete)
        /\ (ge progress (int_lit 100) = false -> ge progress (int_lit 75) = true ->
            band_of progress = Near)
        /\ (ge progress (int_lit 100) = false -> ge progress (int_lit 75) = false ->
            band_of progress = Behind))
  /\ (forall app', saving_goals app' = saving_goals app ->
                   update_goals_table app' = update_goals_table app).
Proof.
  split; [| split; [| split]].
  - unfold update_goals_table. apply map_ext. intros goal.
    unfold goal_progress, band_of.
    destruct (gt (goal_amount goal) zero); simpl;
      repeat match goal with
             | |- context [if ?b then _ else _] => destruct b; simpl
             end; reflexivity.
  - intros goal. unfold goal_progress, zero. split; intros ->; reflexivity.
  - intros progress. unfold band_of. repeat split.
    + now intros ->.
    + now intros -> ->.
    + now intros -> ->.
  - intros app' H. unfold update_goals_table. now rewrite H.
Qed.

End Tables.

(** The table of the worked example under a limit of 100 on food. *)
Lemma budget_table_example :
  update_budget_limits_table Examples.limited
  = [mk_budget_row "Еда" 100%float 250%float true].
Proof. reflexivity. Qed.

(** Spending the limit to the last unit is not over it. *)
Lemma budget_table_at_limit :
  update_budget_limits_table (set_budget_limit "Еда" "250" Examples.ledger)
  = [mk_budget_row "Еда" 250%float 250%float false].
Proof. reflexivity. Qed.

(** Progress of 75, of 100, of 0, and of a goal without an amount. *)
Lemma goals_table_example :
  map (fun row => (grow_progress row, grow_colour row))
      (update_goals_table Examples.goals_app)
  = [(75%float, Amber); (100%float, Green); (0%float, Red); (0%float, Red)].
Proof. reflexivity. Qed.

(** ** Saving and loading *)

Section Persistence.
Context {R : Runtime}.

Lemma traverse_map {A B : Type} (f : B -> option A) (g : A -> B) (l : list A) :
  (forall x, f (g x) = Some x) -> traverse f (map g l) = Some l.
Proof.
  intros H. induction l as [| x l IH]; simpl; [reflexivity |].
  now rewrite H, IH.
Qed.

Lemma as_transaction_json (t : Transaction) : as_transaction (transaction_json t) = Some t.
Proof. destruct t. reflexivity. Qed.

Lemma as_goal_json (g : SavingGoal) : as_goal (goal_json g) = Some g.
Proof. destruct g. reflexivity. Qed.

Lemma as_payment_json (p : RegularPayment) : as_payment (payment_json p) = Some p.
Proof. destruct p as [n a c f [lp |]]; reflexivity. Qed.

Lemma as_limit_json (kv : string * num) :
  as_limit (let '(c, l) := kv in (c, JNum l)) = Some kv.
Proof. destruct kv. reflexivity. Qed.

(** C9: a state that starts from the document written by [save_data] loads
    the four collections as they were saved: the transactions, the goals and
    the payments element for element in the same order, the limits with the
    same keys and the same values. *)
Theorem save_load_round_trip (app fresh : App) :
  data_json fresh = data_json (save_data app) ->
  exists loaded,
    load_data fresh = Some loaded
    /\ transactions loaded = transactions app
    /\ saving_goals loaded = saving_goals app
    /\ regular_payments loaded = regular_payments app
    /\ budget_limits loaded = budget_limits app
    /\ dict_keys (budget_limits loaded) = dict_keys (budget_limits app)
    /\ (forall category, dict_get category (budget_limits loaded)
                         = dict_get category (budget_limits app)).
Proof.
  intros Hfile. unfold load_data. rewrite Hfile. simpl.
  unfold get_list, get_limits. simpl.
  rewrite (traverse_map as_transaction transaction_json _ as_transaction_json).
  rewrite (traverse_map as_goal goal_json _ as_goal_json).
  rewrite (traverse_map as_payment payment_json _ as_payment_json).
  rewrite (traverse_map as_limit (fun '(c, l) => (c, JNum l)) _ as_limit_json).
  eexists. split; [reflexivity |]. simpl. repeat split.
Qed.

(** Saving changes none of the four collections. *)
Lemma save_data_keeps (app : App) :
  transactions (save_data app) = transactions app
  /\ budget_limits (save_data app) = budget_limits app
  /\ saving_goals (save_data app) = saving_goals app
  /\ regular_payments (save_data app) = regular_payments app.
Proof. repeat split. Qed.

(** Without a file nothing is loaded. *)
Lemma load_data_missing (app : App) : data_json app = None -> load_data app = Some app.
Proof. intros H. unfold load_data. now rewrite H. Qed.

End Persistence.

(** The worked example with its limit, goal and payment comes back from
    its own file. *)
Lemma save_load_round_trip_witness :
  data_json (Examples.restarted Examples.full) = data_json (save_data Examples.full)
  /\ exists loaded,
       load_data (Examples.restarted Examples.full) = Some loaded
       /\ transactions loaded = transactions Examples.full
       /\ budget_limits loaded = budget_limits Examples.full.
Proof.
  assert (Hfile : data_json (Examples.restarted Examples.full)
                  = data_json (save_data Examples.full)) by reflexivity.
  split; [exact Hfile |].
  destruct (save_load_round_trip Examples.full (Examples.restarted Examples.full) Hfile)
    as (loaded & Hload & Hts & _ & _ & Hlimits & _).
  exists loaded. repeat split; assumption.
Defined.

(** ** The import *)

Section Importing.
Context {R : Runtime}.

Lemma set_transactions_same (app : App) : set_transactions (transactions app) app = app.
Proof. now destruct app. Qed.

(** The loop appends, in the order of the file, the rows that parse. *)
Lemma import_lines_appends (lines : list string) (app : App) :
  import_lines lines app = set_transactions (transactions app ++ imported lines) app.
Proof.
  unfold import_lines. revert app.
  induction lines as [| line lines IH]; intros app; simpl.
  - now rewrite app_nil_r, set_transactions_same.
  - rewrite IH. destruct (import_line line) as [t |]; [| reflexivity].
    unfold set_transactions. simpl. now rewrite <- app_assoc.
Qed.



(** What a parsed row carries are the fields of the row. *)
Lemma import_line_some (line : string) (t : Transaction) :
  import_line line = Some t ->
  exists amount rest,
    row_fields line
    = tx_date t :: tx_type t :: tx_category t :: amount :: tx_description t :: rest
    /\ float_of_str (PyStr.replace "," "." amount) = Some (tx_amount t).
Proof.
  unfold import_line. fold (row_fields line).
  destruct (length (row_fields line) <? 5)%nat; [discriminate |].
  destruct (row_fields line) as [| date [| ty [| category [| amount [| desc rest]]]]];
    try discriminate.
  unfold parse_amount.
  destruct (float_of_str (PyStr.replace "," "." amount)) as [a |] eqn:E; [| discriminate].
  intros [= <-]. simpl. exists amount, rest. split; [reflexivity | exact E].
Qed.


Lemma import_shape (header : string) (lines : list string) (period : string)
  (now : Moment) (app : App) :
  import_from_csv (Utf8 (header :: lines)) period now app
  = save_data (import_lines lines app)
  \/ import_from_csv (Utf8 (header :: lines)) period now app
     = emit (Critical import_failed) (save_data (import_lines lines app)).
Proof.
  simpl. destruct (update_all_tabs period now (save_data (import_lines lines app))); auto.
Qed.

Lemma import_transactions (header : string) (lines : list string) (period : string)
  (now : Moment) (app : App) :
  transactions (import_from_csv (Utf8 (header :: lines)) period now app)
  = (transactions app ++ imported lines)%list.
Proof.
  destruct (import_shape header lines period now app) as [-> | ->]; simpl;
    now rewrite import_lines_appends.
Qed.

(** What an import can come to: only the report, the rows saved, the rows
    saved and the report of the redraw, or the rows and the report without
    saving. *)
Lemma import_cases (file : CsvFile) (period : string) (now : Moment) (app : App) :
  import_from_csv file period now app = emit (Critical import_failed) app
  \/ (exists added,
        import_from_csv file period now app
        = save_data (set_transactions (transactions app ++ added) app))
  \/ (exists added,
        import_from_csv file period now app
        = emit (Critical import_failed)
               (save_data (set_transactions (transactions app ++ added) app)))
  \/ (exists added,
        import_from_csv file period now app
        = emit (Critical import_failed)
               (set_transactions (transactions app ++ added) app)).
Proof.
  destruct file as [| [| header lines] | [| header lines]]; try (now left).
  - destruct (import_shape header lines period now app) as [-> | ->];
      rewrite import_lines_appends; right; [left | right; left]; now eexists.
  - right. right. right. simpl. rewrite import_lines_appends. now eexists.
Qed.


(** C10: the import stores the second and the third field of a row as the
    type and the category of the transaction, as they stand, with no look at
    the list of types or at the categories of the type; so there are files
    after whose import the ledger holds a transaction whose category is none
    of its type. *)
Theorem import_keeps_type_and_category :
  (forall line t,
      import_line line = Some t ->
      exists date amount desc rest,
        row_fields line = date :: tx_type t :: tx_category t :: amount :: desc :: rest)
  /\ (forall header line t period now app,
        import_line line = Some t ->
        In t (transactions (import_from_csv (Utf8 [header; line]) period now app)))
  /\ (forall period now,
        exists t, In t (transactions (@import_from_csv Binary64 (Utf8 Examples.foreign_file)
                                                       period now init))
                  /\ @valid_type Binary64 t /\ ~ @valid_category Binary64 t)
  /\ (forall period now,
        exists t, In t (transactions (@import_from_csv Binary64 (Utf8 Examples.transfer_file)
                                                       period now init))
                  /\ ~ @valid_type Binary64 t /\ ~ @valid_category Binary64 t).
Proof.
  split; [| split; [| split]].
  - intros line t H. destruct (import_line_some line t H) as (amount & rest & Hf & _).
    now exists (tx_date t), amount, (tx_description t), rest.
  - intros header line t period now app H.
    rewrite import_transactions. simpl. rewrite H.
    apply in_or_app. right. now left.
  - intros period now.
    exists (@mk_transaction Binary64 "Доход" "Еда" 5%float "2024-03-01" "").
    split; [unfold import_from_csv, Examples.foreign_file;
            destruct (@update_all_tabs Binary64 period now _); left; reflexivity |].
    split; [left; reflexivity |].
    unfold valid_category. simpl.
    intros H. repeat (destruct H as [H | H]; [discriminate H |]). exact H.
  - intros period now.
    exists (@mk_transaction Binary64 "Перевод" "Другое" 5%float "2024-03-01" "").
    split; [unfold import_from_csv, Examples.transfer_file;
            destruct (@update_all_tabs Binary64 period now _); left; reflexivity |].
    split.
    + unfold valid_type. simpl. intros [H | H]; discriminate H.
    + unfold valid_category. simpl. intros H. exact H.
Qed.

End Importing.


(** Nor is anything written when the file stops decoding: the row read
    before that is in the ledger and not in the document. *)
Lemma import_of_garbled_file_saves_nothing :
  ~ import_claim (Garbled (firstn 4 Examples.mixed_file)) Examples.period Examples.noon
                 init
  /\ map tx_category
         (transactions (import_from_csv (Garbled (firstn 4 Examples.mixed_file))
                                        Examples.period Examples.noon init))
     = ["Transport"]
  /\ data_json (import_from_csv (Garbled (firstn 4 Examples.mixed_file))
                                Examples.period Examples.noon init)
     = None.
Proof.
  split; [| split; reflexivity].
  intros [_ Hsaves]. vm_compute in Hsaves. discriminate Hsaves.
Qed.

(** The row of the specification: one transaction of 99.50 under
    ["Transport"]. *)
Lemma import_transport_row :
  import_line Examples.transport_row
  = Some (mk_transaction "Expense" "Transport" 99.5%float "2024-03-01" "Bus")
  /\ transactions (import_from_csv (Utf8 [Examples.header; Examples.transport_row])
                                   Examples.period Examples.noon init)
     = [mk_transaction "Expense" "Transport" 99.5%float "2024-03-01" "Bus"].
Proof. split; reflexivity. Qed.

(** A file with a short row and a row without a number among two good
    ones: the two are stored, and the document is written once. *)
Lemma import_mixed_file :
  map (fun t => (tx_category t, tx_amount t))
      (transactions (import_from_csv (Utf8 Examples.mixed_file)
                                     Examples.period Examples.noon init))
  = [("Transport", 99.5%float); ("Еда", 12.5%float)]
  /\ saves (log (import_from_csv (Utf8 Examples.mixed_file)
                                 Examples.period Examples.noon init)) = 1.
Proof. split; reflexivity. Qed.

(** ** Sessions *)

Section Sessions.
Context {R : Runtime}.

Lemma extends_refl (app : App) : extends app app.
Proof. repeat split; exists []; now rewrite app_nil_r. Qed.

Lemma extends_trans (a b c : App) : extends a b -> extends b c -> extends a c.
Proof.
  intros ((t1 & Ht1) & (g1 & Hg1) & (p1 & Hp1) & (e1 & He1))
         ((t2 & Ht2) & (g2 & Hg2) & (p2 & Hp2) & (e2 & He2)).
  repeat split;
    [exists (t1 ++ t2)%list | exists (g1 ++ g2)%list
     | exists (p1 ++ p2)%list | exists (e1 ++ e2)%list];
    rewrite app_assoc; congruence.
Qed.

Lemma extends_emit (e : Event) (app : App) : extends app (emit e app).
Proof.
  repeat split; simpl; try (exists []; now rewrite app_nil_r). now exists [e].
Qed.

Lemma extends_save (app : App) : extends app (save_data app).
Proof.
  repeat split; simpl; try (exists []; now rewrite app_nil_r).
  now exists [Saved (document app)].
Qed.

Lemma extends_appended (added : list Transaction) (app : App) :
  extends app (set_transactions (transactions app ++ added) app).
Proof.
  repeat split; simpl; try (exists []; now rewrite app_nil_r). now exists added.
Qed.

Lemma extends_recorded (t : Transaction) (app : App) :
  extends app (save_data (set_transactions (transactions app ++ [t]) app)).
Proof.
  eapply extends_trans; [apply extends_appended | apply extends_save].
Qed.

Lemma extends_perform (a : Action) (app : App) : extends app (perform a app).
Proof.
  destruct a as [form | c l | n a d | n a c f | c okc a oka d | c okc a oka d
                 | file period now];
    simpl.
  - unfold add_transaction. destruct (parse_amount (amount_input form));
      [apply extends_recorded | apply extends_emit].
  - unfold set_budget_limit. destruct (parse_amount l); [| apply extends_emit].
    repeat split; simpl; try (exists []; now rewrite app_nil_r). eexists. reflexivity.
  - unfold add_saving_goal. destruct (parse_amount a); [| apply extends_emit].
    repeat split; simpl; try (exists []; now rewrite app_nil_r);
      eexists; reflexivity.
  - unfold add_regular_payment. destruct (parse_amount a); [| apply extends_emit].
    repeat split; simpl; try (exists []; now rewrite app_nil_r);
      eexists; reflexivity.
  - unfold quick_add_income. destruct okc; simpl; [| apply extends_refl].
    destruct oka; [apply extends_recorded | apply extends_refl].
  - unfold quick_add_expense. destruct okc; simpl; [| apply extends_refl].
    destruct oka; [apply extends_recorded | apply extends_refl].
  - destruct (import_cases file period now app)
      as [-> | [(added & ->) | [(added & ->) | (added & ->)]]].
    + apply extends_emit.
    + eapply extends_trans; [apply extends_appended | apply extends_save].
    + eapply extends_trans; [apply extends_appended |].
      eapply extends_trans; [apply extends_save | apply extends_emit].
    + eapply extends_trans; [apply extends_appended | apply extends_emit].
Qed.

(** X1: whatever the user does, what was recorded stays: the transactions,
    the goals, the payments and the events of before begin those of after,
    unchanged and in the same order. *)
Theorem session_only_appends (actions : list Action) (app : App) :
  extends app (session actions app).
Proof.
  unfold session. revert app.
  induction actions as [| a actions IH]; intros app; simpl; [apply extends_refl |].
  eapply extends_trans; [apply extends_perform | apply IH].
Qed.













End Sessions.

(** ** Limits, goals and payments *)

Section Limits.
Context {R : Runtime}.

Lemma budget_limits_perform (a : Action) (app : App) :
  budget_limits (perform a app) = budget_limits app
  \/ exists category limit,
       budget_limits (perform a app) = dict_set category limit (budget_limits app).
Proof.
  destruct a as [form | c l | n a d | n a c f | c okc a oka d | c okc a oka d
                 | file period now];
    simpl.
  - unfold add_transaction. destruct (parse_amount (amount_input form)); now left.
  - unfold set_budget_limit. destruct (parse_amount l) as [limit |]; [| now left].
    right. now exists c, limit.
  - unfold add_saving_goal. destruct (parse_amount a); now left.
  - unfold add_regular_payment. destruct (parse_amount a); now left.
  - unfold quick_add_income. destruct okc, oka; now left.
  - unfold quick_add_expense. destruct okc, oka; now left.
  - destruct (import_cases file period now app)
      as [-> | [(added & ->) | [(added & ->) | (added & ->)]]]; now left.
Qed.

(** X3: a category never has two limits.  If the categories of the limits
    are distinct before a session they are distinct after it, and so are the
    rows of the budget table. *)
Theorem limits_stay_distinct (actions : list Action) (app : App) :
  NoDup (dict_keys (budget_limits app)) ->
  NoDup (dict_keys (budget_limits (session actions app)))
  /\ NoDup (map row_category (update_budget_limits_table (session actions app))).
Proof.
  intros Hnd.
  assert (H : NoDup (dict_keys (budget_limits (session actions app)))).
  { unfold session. revert app Hnd.
    induction actions as [| a actions IH]; intros app Hnd; simpl; [exact Hnd |].
    apply IH. destruct (budget_limits_perform a app) as [-> | (c & l & ->)];
      [exact Hnd | now apply dict_set_nodup]. }
  split; [exact H |].
  unfold update_budget_limits_table. rewrite map_map.
  erewrite map_ext; [exact H |]. now intros [c l].
Qed.

(** X4: setting a limit with an amount that parses makes it the limit of
    the category and leaves the limits of the other categories; a category
    that had a limit keeps its place in the table, a new one goes to the
    end. *)
Theorem set_budget_limit_lookup (category limit_input : string) (limit : num) (app : App) :
  parse_amount limit_input = Some limit ->
  dict_get category (budget_limits (set_budget_limit category limit_input app)) = Some limit
  /\ (forall other, other <> category ->
        dict_get other (budget_limits (set_budget_limit category limit_input app))
        = dict_get other (budget_limits app))
  /\ (In category (dict_keys (budget_limits app)) ->
      dict_keys (budget_limits (set_budget_limit category limit_input app))
      = dict_keys (budget_limits app))
  /\ (~ In category (dict_keys (budget_limits app)) ->
      dict_keys (budget_limits (set_budget_limit category limit_input app))
      = (dict_keys (budget_limits app) ++ [category])%list)
  /\ transactions (set_budget_limit category limit_input app) = transactions app.
Proof.
  intros Hparse. unfold set_budget_limit. rewrite Hparse. simpl.
  split; [apply dict_get_set_same |]. split.
  - intros other Hne. apply dict_get_set_other. congruence.
  - split; [apply dict_keys_set_in |]. split; [apply dict_keys_set_new | reflexivity].
Qed.

(** X5: an amount that does not parse stops [set_budget_limit],
    [add_saving_goal] and [add_regular_payment] alike: the warning is shown
    and the collections and the file are as before. *)
Theorem unparsed_amount_changes_nothing (amount_text : string) (app : App) :
  parse_amount amount_text = None ->
  (forall category, set_budget_limit category amount_text app
                    = emit (Warning invalid_amount) app)
  /\ (forall name date, add_saving_goal name amount_text date app
                        = emit (Warning invalid_amount) app)
  /\ (forall name category frequency,
        add_regular_payment name amount_text category frequency app
        = emit (Warning invalid_amount) app)
  /\ same_store (emit (Warning invalid_amount) app) app
  /\ data_json (emit (Warning invalid_amount) app) = data_json app.
Proof.
  intros Hparse. unfold set_budget_limit, add_saving_goal, add_regular_payment.
  rewrite Hparse. repeat split.
Qed.

(** A goal and a payment that are added go to the end of their lists,
    the goal with nothing saved and the payment never paid, and the
    transactions are not touched. *)
Lemma goal_and_payment_added (name amount_text : string) (amount : num) (app : App) :
  parse_amount amount_text = Some amount ->
  (forall date,
      saving_goals (add_saving_goal name amount_text date app)
      = (saving_goals app ++ [mk_goal name amount date (int_lit 0)])%list
      /\ transactions (add_saving_goal name amount_text date app) = transactions app)
  /\ (forall category frequency,
        regular_payments (add_regular_payment name amount_text category frequency app)
        = (regular_payments app ++ [mk_payment name amount category frequency None])%list
        /\ transactions (add_regular_payment name amount_text category frequency app)
           = transactions app).
Proof.
  intros Hparse. unfold add_saving_goal, add_regular_payment. rewrite Hparse.
  repeat split.
Qed.

End Limits.

(** ** Totals after a recording *)

Section Totals.
Context {R : Runtime}.

Lemma summed_recorded (p : Transaction -> bool) (app : App) (t : Transaction) :
  summed p (save_data (set_transactions (transactions app ++ [t]) app))
  = (summed p app ++ (if p t then [tx_amount t] else []))%list.
Proof.
  unfold summed, amounts. simpl. rewrite filter_app, map_app. simpl.
  now destruct (p t).
Qed.

(** X6: a transaction entered with an amount that parses joins the
    amounts that the totals add, at their end: those of the total income if
    its type is income, those of the total expense if its type is expense,
    and neither otherwise; the balance is the difference of the two new
    totals.  It joins what is spent in its category if it is an expense, and
    in no other category. *)
Theorem add_transaction_totals (form : TransactionForm) (amount : num) (app : App) :
  parse_amount (amount_input form) = Some amount ->
  total_income (add_transaction form app)
  = py_sum (summed (is_type income_type) app
            ++ (if (transaction_type_combo form =? income_type)%string
                then [amount] else []))
  /\ total_expense (add_transaction form app)
     = py_sum (summed (is_type expense_type) app
               ++ (if (transaction_type_combo form =? expense_type)%string
                   then [amount] else []))
  /\ calculate_balance (add_transaction form app)
     = sub (total_income (add_transaction form app))
           (total_expense (add_transaction form app))
  /\ (forall category,
        spent_in (add_transaction form app) category
        = py_sum (summed (fun t => is_type expense_type t
                                   && (tx_category t =? category)%string) app
                  ++ (if (transaction_type_combo form =? expense_type)%string
                         && (category_combo form =? category)%string
                      then [amount] else [])))
  /\ (forall p,
        summed p (add_transaction form app)
        = (summed p app
           ++ (if p (mk_transaction (transaction_type_combo form) (category_combo form)
                                    amount (date_edit form) (description_input form))
               then [amount] else []))%list).
Proof.
  intros Hparse. unfold add_transaction. rewrite Hparse.
  set (t := mk_transaction (transaction_type_combo form) (category_combo form) amount
                           (date_edit form) (description_input form)).
  split; [exact (f_equal py_sum (summed_recorded (is_type income_type) app t)) |].
  split; [exact (f_equal py_sum (summed_recorded (is_type expense_type) app t)) |].
  split; [reflexivity |]. split.
  - intros category.
    exact (f_equal py_sum
             (summed_recorded (fun t => is_type expense_type t
                                        && (tx_category t =? category)%string) app t)).
  - intros p. exact (summed_recorded p app t).
Qed.

(** X7: a quick income that is confirmed in both dialogs joins the amounts
    that the total income adds, at their end, and leaves those of the total
    expense, a quick expense the other way round; either dialog cancelled,
    nothing changes at all. *)
Theorem quick_add_totals (category today : string) (amount : num) (app : App) :
  total_income (quick_add_income category true amount true today app)
  = py_sum (summed (is_type income_type) app ++ [amount])
  /\ total_expense (quick_add_income category true amount true today app)
     = total_expense app
  /\ total_expense (quick_add_expense category true amount true today app)
     = py_sum (summed (is_type expense_type) app ++ [amount])
  /\ total_income (quick_add_expense category true amount true today app)
     = total_income app
  /\ (forall ok, quick_add_income category false amount ok today app = app
                 /\ quick_add_income category ok amount false today app = app
                 /\ quick_add_expense category false amount ok today app = app
                 /\ quick_add_expense category ok amount false today app = app).
Proof.
  unfold quick_add_income, quick_add_expense. simpl.
  set (i := mk_transaction income_type category amount today "Быстрый доход").
  set (e := mk_transaction expense_type category amount today "Быстрый расход").
  split; [exact (f_equal py_sum (summed_recorded (is_type income_type) app i)) |].
  split; [pose proof (f_equal py_sum (summed_recorded (is_type expense_type) app i)) as H;
          simpl in H; rewrite app_nil_r in H; exact H |].
  split; [exact (f_equal py_sum (summed_recorded (is_type expense_type) app e)) |].
  split; [pose proof (f_equal py_sum (summed_recorded (is_type income_type) app e)) as H;
          simpl in H; rewrite app_nil_r in H; exact H |].
  intros ok. destruct ok; repeat split.
Qed.

End Totals.

(** ** The transactions of a category *)

Section CategoryDialogs.
Context {R : Runtime}.

Lemma str_leb_refl (a : string) : (a <=? a)%string = true.
Proof.
  destruct (a <=? a)%string eqn:E; [reflexivity |].
  apply str_leb_false in E. now rewrite str_ltb_irrefl in E.
Qed.

Lemma str_ltb_leb (a b : string) : (a <? b)%string = true -> (a <=? b)%string = true.
Proof.
  unfold String.ltb, String.leb. destruct (a ?= b)%string; congruence.
Qed.

Lemma str_leb_trans (a b c : string) :
  (a <=? b)%string = true -> (b <=? c)%string = true -> (a <=? c)%string = true.
Proof.
  intros Hab Hbc.
  destruct (string_dec a b) as [-> | Hne1]; [exact Hbc |].
  destruct (string_dec b c) as [<- | Hne2]; [exact Hab |].
  apply str_ltb_leb. eapply str_ltb_trans; apply str_leb_ltb; eassumption.
Qed.

Lemma insert_recent_perm (t : Transaction) (l : list Transaction) :
  Permutation (insert_recent t l) (t :: l).
Proof.
  induction l as [| u l IH]; simpl; [reflexivity |].
  destruct (tx_date u <=? tx_date t)%string; [reflexivity |].
  rewrite IH. apply perm_swap.
Qed.

Lemma sorted_recent_perm (l : list Transaction) : Permutation (sorted_recent l) l.
Proof.
  induction l as [| t l IH]; simpl; [reflexivity |].
  rewrite insert_recent_perm. now constructor.
Qed.

Lemma insert_recent_sorted (t : Transaction) (l : list Transaction) :
  newest_first l -> newest_first (insert_recent t l).
Proof.
  unfold newest_first. induction l as [| u l IH]; simpl; intros Hs.
  - repeat constructor.
  - inversion Hs as [| ? ? Hs' Hall]; subst.
    destruct (tx_date u <=? tx_date t)%string eqn:E.
    + constructor; [exact Hs |]. constructor; [exact E |].
      eapply Forall_impl; [| exact Hall]. intros b Hb. simpl in Hb.
      eapply str_leb_trans; eassumption.
    + constructor; [now apply IH |].
      eapply Permutation_Forall; [symmetry; apply insert_recent_perm |].
      constructor; [| exact Hall]. now apply str_ltb_leb, str_leb_false.
Qed.

Lemma sorted_recent_sorted (l : list Transaction) : newest_first (sorted_recent l).
Proof.
  induction l as [| t l IH]; simpl; [constructor | now apply insert_recent_sorted].
Qed.

Lemma StronglySorted_app {A : Type} (P : A -> A -> Prop) (l1 l2 : list A) :
  StronglySorted P (l1 ++ l2) ->
  StronglySorted P l1 /\ forall a b, In a l1 -> In b l2 -> P a b.
Proof.
  induction l1 as [| x l1 IH]; simpl; intros Hs.
  - split; [constructor | intros a b []].
  - inversion Hs as [| ? ? Hs' Hall]; subst. destruct (IH Hs') as [H1 H2]. split.
    + constructor; [exact H1 |]. apply Forall_forall. intros a Ha.
      apply (proj1 (Forall_forall _ _) Hall). apply in_or_app. now left.
    + intros a b [<- | Ha] Hb; [| now apply H2].
      apply (proj1 (Forall_forall _ _) Hall). apply in_or_app. now right.
Qed.

(** X8: when the dialog lists transactions, these are transactions of the
    ledger of the type and the category asked for, ten of them or all if
    there are fewer, from the latest date to the earliest, and none of those
    left out is later than one that is shown. *)
Theorem category_dialog_lists_latest (trans_type category heading kind : string)
  (items : list Transaction) (app : App) :
  show_category_transactions trans_type category app = Listing heading kind items ->
  heading = category /\ kind = trans_type
  /\ (forall t, In t items ->
        In t (transactions app) /\ tx_type t = trans_type /\ tx_category t = category)
  /\ length items
     = Nat.min 10 (length (filter (fun t => (tx_type t =? trans_type)%string
                                            && (tx_category t =? category)%string)
                                  (transactions app)))
  /\ newest_first items
  /\ exists left_out,
       Permutation (items ++ left_out)
                   (filter (fun t => (tx_type t =? trans_type)%string
                                     && (tx_category t =? category)%string)
                           (transactions app))
       /\ forall t u, In t items -> In u left_out ->
                      (tx_date u <=? tx_date t)%string = true.
Proof.
  unfold show_category_transactions.
  set (matching := filter (fun t => (tx_type t =? trans_type)%string
                                    && (tx_category t =? category)%string)
                          (transactions app)).
  intros H.
  assert (Hitems : heading = category /\ kind = trans_type
                   /\ items = firstn 10 (sorted_recent matching)).
  { destruct matching; [discriminate H |]. injection H as <- <- <-. auto. }
  destruct Hitems as (-> & -> & ->). clear H.
  pose proof (sorted_recent_sorted matching) as Hsorted. unfold newest_first in *.
  rewrite <- (firstn_skipn 10 (sorted_recent matching)) in Hsorted.
  destruct (StronglySorted_app _ _ _ Hsorted) as [Hfirst Hcross].
  split; [reflexivity |]. split; [reflexivity |]. split; [| split; [| split]].
  - intros t Ht.
    assert (Hin : In t matching).
    { apply (Permutation_in _ (sorted_recent_perm matching)).
      rewrite <- (firstn_skipn 10 (sorted_recent matching)). apply in_or_app. now left. }
    apply filter_In in Hin. destruct Hin as [Hin Hb].
    apply andb_prop in Hb. destruct Hb as [Hty Hc].
    apply String.eqb_eq in Hty, Hc. auto.
  - rewrite length_firstn. f_equal. apply Permutation_length, sorted_recent_perm.
  - exact Hfirst.
  - exists (skipn 10 (sorted_recent matching)). split.
    + rewrite firstn_skipn. apply sorted_recent_perm.
    + intros t u Ht Hu. exact (Hcross t u Ht Hu).
Qed.

(** X9: the dialog says that there are no transactions exactly when the
    ledger has none of that type in that category. *)
Theorem category_dialog_empty (trans_type category : string) (app : App) :
  show_category_transactions trans_type category app = NoTransactions category
  <-> forall t, In t (transactions app) ->
                ~ (tx_type t = trans_type /\ tx_category t = category).
Proof.
  unfold show_category_transactions.
  set (matching := filter (fun t => (tx_type t =? trans_type)%string
                                    && (tx_category t =? category)%string)
                          (transactions app)).
  assert (Hin : forall t, In t matching
                          <-> In t (transactions app)
                              /\ tx_type t = trans_type /\ tx_category t = category).
  { intros t. unfold matching. rewrite filter_In, andb_true_iff, !String.eqb_eq. tauto. }
  split.
  - intros H t Ht Hmatch. destruct matching as [| u l] eqn:E; [| discriminate H].
    apply (proj2 (Hin t)); auto.
  - intros H. destruct matching as [| u l]; [reflexivity |].
    exfalso. destruct (proj1 (Hin u) (or_introl eq_refl)) as (Hu & Hm).
    exact (H u Hu Hm).
Qed.

End CategoryDialogs.

(** ** The statistics *)

Lemma datetime_compare_lt (a b : datetime) : datetime_compare a b = Lt <-> earlier a b.
Proof.
  destruct a as [y1 m1 d1], b as [y2 m2 d2]. unfold datetime_compare, earlier. simpl.
  destruct (Nat.compare_spec y1 y2); destruct (Nat.compare_spec m1 m2);
    destruct (Nat.compare_spec d1 d2); split; intros Hc;
    try discriminate Hc; try reflexivity; lia.
Qed.

Lemma datetime_compare_gt (a b : datetime) : datetime_compare a b = Gt <-> earlier b a.
Proof.
  destruct a as [y1 m1 d1], b as [y2 m2 d2]. unfold datetime_compare, earlier. simpl.
  destruct (Nat.compare_spec y1 y2); destruct (Nat.compare_spec m1 m2);
    destruct (Nat.compare_spec d1 d2); split; intros Hc;
    try discriminate Hc; try reflexivity; lia.
Qed.

Lemma datetime_compare_eq (a b : datetime) : datetime_compare a b = Eq <-> a = b.
Proof.
  destruct a as [y1 m1 d1], b as [y2 m2 d2]. unfold datetime_compare. simpl.
  destruct (Nat.compare_spec y1 y2); destruct (Nat.compare_spec m1 m2);
    destruct (Nat.compare_spec d1 d2); split; intros Hc;
    try discriminate Hc; try reflexivity; try (injection Hc; lia); subst; reflexivity.
Qed.

Lemma earlier_trans (a b c : datetime) : earlier a b -> earlier b c -> earlier a c.
Proof. unfold earlier. lia. Qed.

Lemma earlier_irrefl (a : datetime) : ~ earlier a a.
Proof. unfold earlier. lia. Qed.

Lemma same_day_eq (a b : datetime) : same_day a b = true <-> a = b.
Proof.
  unfold same_day. rewrite <- datetime_compare_eq.
  destruct (datetime_compare a b); split; congruence.
Qed.

Lemma same_day_refl (a : datetime) : same_day a a = true.
Proof. now apply same_day_eq. Qed.

Lemma same_day_neq (a b : datetime) : a <> b -> same_day a b = false.
Proof.
  intros Hne. destruct (same_day a b) eqn:E; [| reflexivity].
  apply same_day_eq in E. contradiction.
Qed.

Lemma insert_day_in (x d : datetime) (l : list datetime) :
  In d (insert_day x l) <-> d = x \/ In d l.
Proof.
  induction l as [| y l IH]; simpl; [intuition |].
  destruct (datetime_compare x y) eqn:E; simpl.
  - apply datetime_compare_eq in E. subst y. intuition.
  - intuition.
  - rewrite IH. intuition.
Qed.

Lemma insert_day_sorted (x : datetime) (l : list datetime) :
  StronglySorted earlier l -> StronglySorted earlier (insert_day x l).
Proof.
  induction l as [| y l IH]; simpl; intros Hs.
  - repeat constructor.
  - inversion Hs as [| ? ? Hs' Hall]; subst.
    destruct (datetime_compare x y) eqn:E.
    + exact Hs.
    + apply datetime_compare_lt in E. constructor; [exact Hs |].
      constructor; [exact E |]. eapply Forall_impl; [| exact Hall].
      intros z Hz. eapply earlier_trans; eassumption.
    + apply datetime_compare_gt in E. constructor; [now apply IH |].
      apply Forall_forall. intros z Hz. apply insert_day_in in Hz.
      destruct Hz as [-> | Hz]; [exact E |].
      exact (proj1 (Forall_forall _ _) Hall z Hz).
Qed.

Lemma sorted_days_in (d : datetime) (l : list datetime) :
  In d (sorted_days l) <-> In d l.
Proof.
  induction l as [| x l IH]; simpl; [tauto |].
  rewrite insert_day_in, IH. intuition.
Qed.

Lemma sorted_days_sorted (l : list datetime) : StronglySorted earlier (sorted_days l).
Proof.
  induction l as [| x l IH]; simpl; [constructor | now apply insert_day_sorted].
Qed.

Section Statistics.
Context {R : Runtime}.

Lemma day_get_set_same (d : datetime) (v : num) (days : by_day) :
  day_get d (day_set d v days) = Some v.
Proof.
  induction days as [| [d' v'] days IH]; simpl.
  - now rewrite same_day_refl.
  - destruct (same_day d' d) eqn:E; simpl; [now rewrite same_day_refl | now rewrite E].
Qed.

Lemma day_get_set_other (d d' : datetime) (v : num) (days : by_day) :
  d <> d' -> day_get d' (day_set d v days) = day_get d' days.
Proof.
  intros Hne. induction days as [| [d0 v0] days IH]; simpl.
  - now rewrite (same_day_neq _ _ Hne).
  - destruct (same_day d0 d) eqn:E; simpl.
    + apply same_day_eq in E. subst d0. now rewrite (same_day_neq _ _ Hne).
    + now rewrite IH.
Qed.

Lemma day_set_days (d d' : datetime) (v : num) (days : by_day) :
  In d' (map fst (day_set d v days)) <-> d' = d \/ In d' (map fst days).
Proof.
  induction days as [| [d0 v0] days IH]; simpl; [intuition |].
  destruct (same_day d0 d) eqn:E; simpl.
  - apply same_day_eq in E. subst d0. intuition.
  - rewrite IH. intuition.
Qed.

Lemma day_value_add_same (d : datetime) (x : num) (days : by_day) :
  day_value d (day_add d x days) = add (day_value d days) x.
Proof. unfold day_add. unfold day_value at 1. now rewrite day_get_set_same. Qed.

Lemma day_value_add_other (d d' : datetime) (x : num) (days : by_day) :
  d <> d' -> day_value d' (day_add d x days) = day_value d' days.
Proof. intros Hne. unfold day_add, day_value. now rewrite day_get_set_other. Qed.

(** One of the two accumulations of the loop, over the transactions that
    [p] selects. *)
Lemma day_value_fold (p : Transaction -> bool) (ts : list Transaction) (days : by_day)
  (d : datetime) :
  day_value d (fold_left (fun days t => if p t then day_add (day_of t) (tx_amount t) days
                                        else days) ts days)
  = fold_left add (amounts (filter (fun t => p t && same_day (day_of t) d) ts))
              (day_value d days).
Proof.
  revert days. induction ts as [| t ts IH]; intros days; simpl; [reflexivity |].
  rewrite IH. destruct (p t); simpl; [| reflexivity].
  destruct (same_day (day_of t) d) eqn:E; simpl.
  - apply same_day_eq in E. subst d. now rewrite day_value_add_same.
  - rewrite day_value_add_other; [reflexivity |].
    intros Heq. subst d. now rewrite same_day_refl in E.
Qed.

Lemma days_fold (p : Transaction -> bool) (ts : list Transaction) (days : by_day)
  (d : datetime) :
  In d (map fst (fold_left (fun days t => if p t
                                          then day_add (day_of t) (tx_amount t) days
                                          else days) ts days))
  <-> In d (map fst days) \/ exists t, In t ts /\ p t = true /\ day_of t = d.
Proof.
  revert days. induction ts as [| t ts IH]; intros days; simpl.
  - split; [auto | intros [H | (t & [] & _)]; exact H].
  - rewrite IH. destruct (p t) eqn:Hp.
    + unfold day_add. rewrite day_set_days. split.
      * intros [[-> | H] | (u & Hu & Hpu & Hd)]; eauto 6.
      * intros [H | (u & [<- | Hu] & Hpu & Hd)]; eauto 6.
    + split.
      * intros [H | (u & Hu & Hpu & Hd)]; eauto 6.
      * intros [H | (u & [<- | Hu] & Hpu & Hd)]; eauto 6. congruence.
Qed.

Lemma day_of_parsed (t : Transaction) (d : datetime) :
  strptime_ymd (tx_date t) = Some d -> day_of t = d.
Proof. intros H. unfold day_of. now rewrite H. Qed.

Lemma on_day_parsed (t : Transaction) (d : datetime) :
  strptime_ymd (tx_date t) <> None -> on_day d t = same_day (day_of t) d.
Proof.
  intros H. unfold on_day, day_of. destruct (strptime_ymd (tx_date t)); congruence.
Qed.

Lemma days_loop_fold (ts : list Transaction) (income_by_day expense_by_day : by_day) :
  Forall (fun t => strptime_ymd (tx_date t) <> None) ts ->
  days_loop ts income_by_day expense_by_day
  = Some (fold_left (fun days t => if is_type income_type t
                                   then day_add (day_of t) (tx_amount t) days else days)
                    ts income_by_day,
          fold_left (fun days t => if negb (is_type income_type t)
                                   then day_add (day_of t) (tx_amount t) days else days)
                    ts expense_by_day).
Proof.
  intros Hall. revert income_by_day expense_by_day.
  induction Hall as [| t ts Ht Hall IH]; intros i e; simpl; [reflexivity |].
  destruct (strptime_ymd (tx_date t)) as [d |] eqn:Hd; [| contradiction].
  rewrite (day_of_parsed t d Hd).
  destruct (is_type income_type t); simpl; apply IH.
Qed.

Lemma days_loop_unreadable (ts : list Transaction) (i e : by_day) :
  Exists (fun t => strptime_ymd (tx_date t) = None) ts -> days_loop ts i e = None.
Proof.
  intros Hex. revert i e.
  induction Hex as [t ts Ht | t ts Hex IH]; intros i e; simpl.
  - now rewrite Ht.
  - destruct (strptime_ymd (tx_date t)); [| reflexivity].
    destruct (is_type income_type t); apply IH.
Qed.

Lemma since_filter (start : Moment) (ts : list Transaction) :
  Forall (fun t => strptime_ymd (tx_date t) <> None) ts ->
  since start ts = Some (filter (fun t => on_or_after (day_of t) start) ts).
Proof.
  induction 1 as [| t ts Ht Hall IH]; simpl; [reflexivity |].
  rewrite IH. unfold day_of.
  destruct (strptime_ymd (tx_date t)) as [d |]; [| contradiction].
  now destruct (on_or_after d start).
Qed.


Lemma readable_or_not (ts : list Transaction) :
  Forall (fun t => strptime_ymd (tx_date t) <> None) ts
  \/ Exists (fun t => strptime_ymd (tx_date t) = None) ts.
Proof.
  induction ts as [| t ts [IH | IH]].
  - left. constructor.
  - destruct (strptime_ymd (tx_date t)) eqn:E.
    + left. constructor; [congruence | exact IH].
    + right. now constructor.
  - right. now constructor 2.
Qed.

Lemma on_or_after_iff (d : datetime) (start : Moment) :
  on_or_after d start = true
  <-> earlier (moment_date start) d \/ (d = moment_date start /\ moment_clock start = 0).
Proof.
  unfold on_or_after. destruct (datetime_compare d (moment_date start)) eqn:E.
  - apply datetime_compare_eq in E. subst d. rewrite Nat.eqb_eq. split.
    + intros H. right. auto.
    + intros [H | [_ H]]; [now apply earlier_irrefl in H | exact H].
  - apply datetime_compare_lt in E. split; [discriminate |].
    intros [H | [-> _]]; exfalso.
    + exact (earlier_irrefl _ (earlier_trans _ _ _ E H)).
    + exact (earlier_irrefl _ E).
  - apply datetime_compare_gt in E. split; auto.
Qed.

(** X10: the period of a month starts at the first day of the month of
    [now] at the time of day of [now], and has no end.  With readable dates,
    a transaction is in the period exactly when its day is after the first of
    the month, or is the first of the month and [now] is exactly midnight;
    the period of a year starts in the same way at the first of January.
    Any other period keeps every transaction.  The order of the ledger is
    kept. *)
Theorem stats_period_starts (now : Moment) (app : App) :
  Forall (fun t => strptime_ymd (tx_date t) <> None) (transactions app) ->
  (exists shown,
      period_transactions this_month now app = Some shown
      /\ shown = filter (fun t => on_or_after (day_of t) (first_of_month now))
                        (transactions app)
      /\ forall t d, strptime_ymd (tx_date t) = Some d ->
           (In t shown
            <-> In t (transactions app)
                /\ (earlier (mk_datetime (dt_year (moment_date now))
                                         (dt_month (moment_date now)) 1) d
                    \/ (d = mk_datetime (dt_year (moment_date now))
                                        (dt_month (moment_date now)) 1
                        /\ moment_clock now = 0))))
  /\ (exists shown,
        period_transactions this_year now app = Some shown
        /\ shown = filter (fun t => on_or_after (day_of t) (first_of_year now))
                          (transactions app)
        /\ forall t d, strptime_ymd (tx_date t) = Some d ->
             (In t shown
              <-> In t (transactions app)
                  /\ (earlier (mk_datetime (dt_year (moment_date now)) 1 1) d
                      \/ (d = mk_datetime (dt_year (moment_date now)) 1 1
                          /\ moment_clock now = 0))))
  /\ (forall period, period <> this_month -> period <> this_year ->
                     period_transactions period now app = Some (transactions app)).
Proof.
  intros Hdates. split; [| split].
  - eexists. split; [| split; [reflexivity |]].
    + unfold period_transactions. simpl. now apply since_filter.
    + intros t d Hd. rewrite filter_In, (day_of_parsed t d Hd), on_or_after_iff.
      reflexivity.
  - eexists. split; [| split; [reflexivity |]].
    + unfold period_transactions. simpl. now apply since_filter.
    + intros t d Hd. rewrite filter_In, (day_of_parsed t d Hd), on_or_after_iff.
      reflexivity.
  - intros period H1 H2. unfold period_transactions.
    apply String.eqb_neq in H1, H2. now rewrite H1, H2.
Qed.

(** X11: when the statistics are drawn, the days are those of the
    transactions of the period, each once, from the earliest to the latest;
    the income of a day is the sum of the amounts of the income transactions
    of the period on that day, and its expense the sum of the amounts of all
    its other transactions. *)
Theorem stats_series (period : string) (now : Moment) (app : App) (stats : Stats) :
  update_stats period now app = Some stats ->
  exists shown,
    period_transactions period now app = Some shown
    /\ StronglySorted earlier (stats_dates stats)
    /\ (forall d, In d (stats_dates stats)
                  <-> exists t, In t shown /\ strptime_ymd (tx_date t) = Some d)
    /\ stats_income stats
       = map (fun d => py_sum (amounts (filter (fun t => is_type income_type t && on_day d t)
                                               shown)))
             (stats_dates stats)
    /\ stats_expense stats
       = map (fun d => py_sum (amounts (filter (fun t => negb (is_type income_type t)
                                                         && on_day d t) shown)))
             (stats_dates stats).
Proof.
  unfold update_stats. intros H.
  destruct (period_transactions period now app) as [shown |]; [| discriminate H].
  exists shown. split; [reflexivity |].
  destruct (readable_or_not shown) as [Hdates | Hex];
    [| now rewrite (days_loop_unreadable _ _ _ Hex) in H].
  rewrite (days_loop_fold _ _ _ Hdates) in H. cbv zeta in H.
  destruct (pie_drawn _) in H; [| discriminate H]. injection H as <-. simpl.
  assert (Hon : forall d (p : Transaction -> bool),
             filter (fun t => p t && same_day (day_of t) d) shown
             = filter (fun t => p t && on_day d t) shown).
  { intros d p. apply filter_ext_in. intros t Ht.
    now rewrite (on_day_parsed t d (proj1 (Forall_forall _ _) Hdates t Ht)). }
  split; [apply sorted_days_sorted |]. split; [| split].
  - intros d. rewrite sorted_days_in, in_app_iff, !days_fold. simpl. split.
    + intros [[[] | (t & Ht & _ & Hd)] | [[] | (t & Ht & _ & Hd)]];
        exists t; (split; [exact Ht |]);
        pose proof (proj1 (Forall_forall _ _) Hdates t Ht) as Hr; simpl in Hr;
        unfold day_of in Hd;
        (destruct (strptime_ymd (tx_date t)); [now subst | now elim Hr]).
    + intros (t & Ht & Hd). apply day_of_parsed in Hd.
      destruct (is_type income_type t) eqn:E.
      * left. right. exists t. auto.
      * right. right. exists t. rewrite E. auto.
  - apply map_ext. intros d. rewrite day_value_fold, Hon. reflexivity.
  - apply map_ext. intros d. rewrite day_value_fold, Hon. reflexivity.
Qed.





(** X13: the chart of the months is not drawn exactly when the ledger
    holds a transaction whose date [strptime] cannot read. *)
Theorem monthly_series_fails_on_unreadable_date (app : App) :
  monthly_series app = None
  <-> Exists (fun t => strptime_ymd (tx_date t) = None) (transactions app).
Proof.
  split.
  - intros H. destruct (readable_or_not (transactions app)) as [Hdates | Hex];
      [exfalso | exact Hex].
    destruct (monthly_series_entries app Hdates) as (series & Hs & _). congruence.
  - intros Hex. unfold monthly_series, sorted_months.
    now rewrite (months_loop_unreadable _ _ Hex).
Qed.

End Statistics.

(** ** More on the import, and the export *)

Section Exchange.
Context {R : Runtime}.







(** The import does not look at what the ledger holds: a file imported
    twice leaves its rows in the ledger twice. *)
Lemma import_twice_duplicates (header : string) (lines : list string) (period : string)
  (now : Moment) (app : App) :
  transactions (import_from_csv (Utf8 (header :: lines)) period now
                                (import_from_csv (Utf8 (header :: lines)) period now app))
  = (transactions app ++ imported lines ++ imported lines)%list.
Proof. now rewrite !import_transactions, <- app_assoc. Qed.

Lemma fold_right_imported (f : string -> option Transaction) (lines : list string) :
  (forall line, In line lines -> import_line line = f line) ->
  imported lines
  = flat_map (fun line => match f line with
                          | Some t => [t]
                          | None => []
                          end) lines.
Proof.
  induction lines as [| line lines IH]; intros H; simpl; [reflexivity |].
  rewrite (H line (or_introl eq_refl)), IH; [| intros l Hl; apply H; now right].
  now destruct (f line).
Qed.

Lemma split_plain (s : string) : PyFile.plain s = true -> PyStr.split ";" s = [s].
Proof.
  induction s as [| c s IH]; simpl; intros H; [reflexivity |].
  apply andb_prop in H. destruct H as [H Hs].
  apply andb_prop in H. destruct H as [H _].
  apply andb_prop in H. destruct H as [H _].
  apply negb_true_iff in H. rewrite H, (IH Hs). reflexivity.
Qed.

Lemma split_field (field rest : string) :
  PyFile.plain field = true ->
  PyStr.split ";" (field ++ String ";" rest) = field :: PyStr.split ";" rest.
Proof.
  induction field as [| c s IH]; simpl; intros H; [reflexivity |].
  apply andb_prop in H. destruct H as [H Hs].
  apply andb_prop in H. destruct H as [H _].
  apply andb_prop in H. destruct H as [H _].
  apply negb_true_iff in H. rewrite H, (IH Hs). reflexivity.
Qed.

Lemma one_line_append (a b : string) :
  PyFile.one_line (a ++ b) = PyFile.one_line a && PyFile.one_line b.
Proof.
  induction a as [| c a IH]; simpl; [reflexivity |].
  rewrite IH. now rewrite andb_assoc.
Qed.

Lemma plain_one_line (s : string) : PyFile.plain s = true -> PyFile.one_line s = true.
Proof.
  induction s as [| c s IH]; simpl; intros H; [reflexivity |].
  apply andb_prop in H. destruct H as [H Hs].
  apply andb_prop in H. destruct H as [H Hcr].
  apply andb_prop in H. destruct H as [_ Hlf].
  now rewrite Hlf, Hcr, (IH Hs).
Qed.

(** A line written with its end is read back as that line. *)
Lemma lines_from_written (body rest : string) :
  PyFile.one_line body = true ->
  PyFile.lines_from (body ++ String PyFile.LF rest)
  = (body ++ String PyFile.LF EmptyString, PyFile.lines rest).
Proof.
  induction body as [| c body IH]; simpl; intros H.
  - unfold PyFile.lines. now destruct (PyFile.lines_from rest).
  - apply andb_prop in H. destruct H as [H Hbody].
    apply andb_prop in H. destruct H as [Hlf Hcr].
    apply negb_true_iff in Hlf, Hcr.
    rewrite (IH Hbody). change (Ascii.eqb c (ascii_of_nat 10)) with (Ascii.eqb c PyFile.LF).
    now rewrite Hlf, Hcr.
Qed.

Lemma lines_written (bodies : list string) :
  Forall (fun b => PyFile.one_line b = true) bodies ->
  PyFile.lines (String.concat EmptyString
                  (map (fun b => b ++ String PyFile.LF EmptyString) bodies))
  = map (fun b => b ++ String PyFile.LF EmptyString) bodies.
Proof.
  induction 1 as [| b bodies Hb Hall IH]; [reflexivity |].
  assert (Hcat : String.concat EmptyString
                   (map (fun b => b ++ String PyFile.LF EmptyString) (b :: bodies))
                 = b ++ String PyFile.LF
                     (String.concat EmptyString
                        (map (fun b => b ++ String PyFile.LF EmptyString) bodies))).
  { simpl. destruct (map _ bodies) eqn:E; simpl.
    - reflexivity.
    - now rewrite append_assoc. }
  rewrite Hcat. unfold PyFile.lines at 1. rewrite (lines_from_written _ _ Hb), IH.
  simpl. destruct b; reflexivity.
Qed.

Section Exporting.
Variable format_2f : num -> string.

Lemma export_row_fields (t : Transaction) :
  exportable format_2f t ->
  PyStr.split ";" (export_row format_2f t)
  = [tx_date t; tx_type t; tx_category t; format_2f (tx_amount t); tx_description t].
Proof.
  intros (Hd & Hty & Hc & Hdesc & Hf & _). unfold export_row.
  change (tx_date t ++ ";" ++ tx_type t ++ ";" ++ tx_category t ++ ";"
          ++ format_2f (tx_amount t) ++ ";" ++ tx_description t)
    with (tx_date t ++ String ";" (tx_type t ++ String ";" (tx_category t ++ String ";"
            (format_2f (tx_amount t) ++ String ";" (tx_description t))))).
  rewrite !split_field by assumption. now rewrite split_plain.
Qed.

Lemma export_row_one_line (t : Transaction) :
  exportable format_2f t -> PyFile.one_line (export_row format_2f t) = true.
Proof.
  intros (Hd & Hty & Hc & Hdesc & Hf & _). unfold export_row.
  rewrite !one_line_append. simpl.
  now rewrite !plain_one_line by assumption.
Qed.

Lemma import_exported_line (t : Transaction) :
  exportable format_2f t ->
  import_line (export_row format_2f t ++ newline) = reimported format_2f t.
Proof.
  intros Ht. pose proof (export_row_fields t Ht) as Hfields.
  destruct Ht as (_ & _ & _ & _ & _ & Hstrip).
  unfold import_line. rewrite Hstrip, Hfields. simpl. unfold reimported.
  now destruct (parse_amount (format_2f (tx_amount t))).
Qed.

(** X15: an export read back.  When the texts of the transactions hold no
    semicolon and no line end and [strip] takes nothing but the line end from
    their rows, the import of the exported file appends one transaction for
    each exported one whose amount, written with two decimals, parses: in
    the same order, with the same type, category, date and description, and
    with the amount read back from those two decimals.  If every amount is
    read back as it was, the ledger is appended as it is. *)
Theorem export_import_round_trip (app target : App) (period : string) (now : Moment) :
  Forall (exportable format_2f) (transactions app) ->
  PyFile.lines (exported_file format_2f app) = export_to_csv format_2f app
  /\ transactions (import_from_csv (Utf8 (PyFile.lines (exported_file format_2f app)))
                                  period now target)
     = (transactions target
        ++ flat_map (fun t => match reimported format_2f t with
                              | Some t' => [t']
                              | None => []
                              end) (transactions app))%list
  /\ (Forall (fun t => parse_amount (format_2f (tx_amount t)) = Some (tx_amount t))
             (transactions app) ->
      transactions (import_from_csv (Utf8 (PyFile.lines (exported_file format_2f app)))
                                  period now target)
      = (transactions target ++ transactions app)%list).
Proof.
  intros Hall.
  assert (Hlines : PyFile.lines (exported_file format_2f app) = export_to_csv format_2f app).
  { unfold exported_file, export_to_csv, newline.
    assert (E : (export_header ++ String PyFile.LF EmptyString)
                :: map (fun t => export_row format_2f t ++ String PyFile.LF EmptyString)
                       (transactions app)
                = map (fun b => b ++ String PyFile.LF EmptyString)
                      (export_header :: map (export_row format_2f) (transactions app))).
    { simpl. now rewrite map_map. }
    rewrite E. apply lines_written.
    constructor; [reflexivity |]. apply Forall_map.
    eapply Forall_impl; [| exact Hall]. intros t. apply export_row_one_line. }
  assert (Himported :
            transactions (import_from_csv (Utf8 (PyFile.lines (exported_file format_2f app)))
                                  period now target)
            = (transactions target
               ++ flat_map (fun t => match reimported format_2f t with
                                     | Some t' => [t']
                                     | None => []
                                     end) (transactions app))%list).
  { rewrite Hlines. unfold export_to_csv. rewrite import_transactions. f_equal.
    clear Hlines. induction Hall as [| t ts Ht Hall IH]; simpl; [reflexivity |].
    rewrite (import_exported_line t Ht), IH.
    now destruct (reimported format_2f t). }
  split; [exact Hlines |]. split; [exact Himported |].
  intros Hsame. rewrite Himported. f_equal.
  clear Himported Hlines Hall.
  induction Hsame as [| t ts Ht Hsame IH]; simpl; [reflexivity |].
  unfold reimported at 1. rewrite Ht, IH. simpl. now destruct t.
Qed.

End Exporting.

End Exchange.

(** ** What stays as it is *)

Section Inert.
Context {R : Runtime}.

Lemma untouched_perform (a : Action) (app : App) :
  untouched app -> untouched (perform a app).
Proof.
  intros [Hgoals Hpayments].
  destruct a as [form | c l | n a d | n a c f | c okc a oka d | c okc a oka d
                 | file period now];
    simpl.
  - unfold add_transaction. destruct (parse_amount (amount_input form)); now split.
  - unfold set_budget_limit. destruct (parse_amount l); now split.
  - unfold add_saving_goal. destruct (parse_amount a); [| now split].
    split; simpl; [| exact Hpayments].
    apply Forall_app. split; [exact Hgoals | now repeat constructor].
  - unfold add_regular_payment. destruct (parse_amount a); [| now split].
    split; simpl; [exact Hgoals |].
    apply Forall_app. split; [exact Hpayments | now repeat constructor].
  - unfold quick_add_income. destruct okc, oka; now split.
  - unfold quick_add_expense. destruct okc, oka; now split.
  - destruct (import_cases file period now app)
      as [-> | [(added & ->) | [(added & ->) | (added & ->)]]]; now split.
Qed.

(** X16: no action of the program saves towards a goal or pays a payment.
    If nothing is saved towards any goal and no payment was paid before a
    session, the same holds after it, whatever the user did. *)
Theorem inert_fields_stay (actions : list Action) (app : App) :
  untouched app -> untouched (session actions app).
Proof.
  unfold session. revert app.
  induction actions as [| a actions IH]; intros app Happ; simpl; [exact Happ |].
  apply IH. now apply untouched_perform.
Qed.

(** X18: what [load_data] makes of a document.  Of an object of the
    persisted layout, a collection whose key is lacking is loaded empty,
    whatever the state held, and an object with none of the four keys empties
    them all; a document that is a list or a text is reported and nothing is
    loaded. *)
Theorem load_data_defaults (app : App) :
  (forall data loaded,
      data_json app = Some (JDict data) -> load_data app = Some loaded ->
      (dict_get "transactions" data = None -> transactions loaded = [])
      /\ (dict_get "budget_limits" data = None -> budget_limits loaded = [])
      /\ (dict_get "saving_goals" data = None -> saving_goals loaded = [])
      /\ (dict_get "regular_payments" data = None -> regular_payments loaded = []))
  /\ (forall entries, data_json app = Some (JList entries) ->
        load_data app = Some (emit (Warning load_failed) app))
  /\ (forall text, data_json app = Some (JStr text) ->
        load_data app = Some (emit (Warning load_failed) app))
  /\ (forall data,
        data_json app = Some (JDict data) ->
        dict_get "transactions" data = None -> dict_get "budget_limits" data = None ->
        dict_get "saving_goals" data = None -> dict_get "regular_payments" data = None ->
        exists loaded, load_data app = Some loaded /\ same_store loaded init).
Proof.
  split; [| split; [| split]].
  - intros data loaded Hfile. unfold load_data. rewrite Hfile.
    unfold get_list, get_limits.
    destruct (dict_get "transactions" data) as [[| | | ts |] |];
      try discriminate;
      destruct (dict_get "budget_limits" data) as [[| | | | ls] |];
      try (destruct (traverse as_transaction ts); discriminate); try discriminate;
      destruct (dict_get "saving_goals" data) as [[| | | gs |] |];
      destruct (dict_get "regular_payments" data) as [[| | | ps |] |];
      repeat match goal with
             | |- context [traverse ?f ?l] => destruct (traverse f l)
             end;
      intros Hload; try discriminate Hload; injection Hload as <-; simpl;
      repeat split; intros Hnone; try discriminate Hnone; reflexivity.
  - intros entries Hfile. unfold load_data. now rewrite Hfile.
  - intros text Hfile. unfold load_data. now rewrite Hfile.
  - intros data Hfile Ht Hl Hg Hp. unfold load_data, get_list, get_limits.
    rewrite Hfile, Ht, Hl, Hg, Hp.
    eexists. split; [reflexivity |]. repeat split.
Qed.

End Inert.

(** ** The dashboard *)

Section Dashboard.
Context {R : Runtime}.


End Dashboard.

(** ** The properties on the worked examples *)

(** The busy day leaves a salary, a quick expense and the two rows of the
    file that parse, a limit of 150 on food, a goal and a payment. *)
Lemma evening_example :
  map tx_amount (transactions Cases.evening)
  = [1000%float; 200%float; 99.5%float; 12.5%float]
  /\ budget_limits Cases.evening = [("Еда", 150%float)]
  /\ map goal_name (saving_goals Cases.evening) = ["Отпуск"]
  /\ map pay_name (regular_payments Cases.evening) = ["Аренда"].
Proof. repeat split; reflexivity. Qed.


(** An import that breaks off after a row leaves that row in the ledger and
    out of the file: after a restart it is gone. *)
Lemma unsaved_row_is_lost :
  map tx_category (transactions (session Cases.cut_short Cases.evening))
  = ["Зарплата"; "Еда"; "Transport"; "Еда"; "Transport"]
  /\ option_map (fun loaded => map tx_category (transactions loaded))
                (restart (session Cases.cut_short Cases.evening))
     = Some ["Зарплата"; "Еда"; "Transport"; "Еда"].
Proof. split; reflexivity. Qed.

(** A refund entered as an expense of -5 is imported and saved, and the
    import is reported as failed all the same: [pie] refuses the expenses. *)
Lemma refund_import_reported :
  map tx_amount (transactions (import_from_csv (Utf8 Cases.refund_file)
                                                this_month Cases.morning init))
  = [(-5)%float]
  /\ (exists doc,
        log (import_from_csv (Utf8 Cases.refund_file) this_month Cases.morning init)
        = [Saved doc; Critical import_failed])
  /\ (exists doc,
        log (import_from_csv (Utf8 Cases.free_file) this_month Cases.morning init)
        = [Saved doc; Critical import_failed])
  /\ update_chart (import_from_csv (Utf8 Cases.refund_file) this_month Cases.morning init)
     <> None.
Proof.
  split; [reflexivity |]. split; [eexists; reflexivity |].
  split; [eexists; reflexivity |]. discriminate.
Qed.

Lemma limits_stay_distinct_witness :
  NoDup (dict_keys (budget_limits (@init Binary64)))
  /\ NoDup (dict_keys (budget_limits Cases.evening)).
Proof.
  assert (H : NoDup (dict_keys (budget_limits (@init Binary64)))) by constructor.
  split; [exact H |].
  exact (proj1 (limits_stay_distinct Cases.busy_day init H)).
Defined.

Lemma set_budget_limit_lookup_witness :
  parse_amount "100" = Some 100%float
  /\ dict_get "Еда" (budget_limits Examples.limited) = Some 100%float.
Proof.
  assert (H : parse_amount "100" = Some 100%float) by reflexivity.
  split; [exact H |].
  exact (proj1 (set_budget_limit_lookup "Еда" "100" 100%float Examples.ledger H)).
Defined.

Lemma unparsed_amount_changes_nothing_witness :
  parse_amount "abc" = None
  /\ set_budget_limit "Еда" "abc" Examples.ledger
     = emit (Warning invalid_amount) Examples.ledger.
Proof.
  assert (H : parse_amount "abc" = None) by reflexivity.
  split; [exact H |].
  exact (proj1 (unparsed_amount_changes_nothing "abc" Examples.ledger H) "Еда").
Defined.

Lemma add_transaction_totals_witness :
  parse_amount (amount_input Examples.foreign_category) = Some 100%float
  /\ total_income (add_transaction Examples.foreign_category Examples.ledger)
     = py_sum [1000%float; 100%float].
Proof.
  assert (H : parse_amount (amount_input Examples.foreign_category) = Some 100%float)
    by reflexivity.
  split; [exact H |].
  exact (proj1 (add_transaction_totals Examples.foreign_category 100%float
                                       Examples.ledger H)).
Defined.

Lemma category_dialog_lists_latest_witness :
  show_category_transactions "Расход" "Еда" Examples.ledger
  = Listing "Еда" "Расход"
            [mk_transaction "Расход" "Еда" 50%float "2024-02-01" "";
             mk_transaction "Расход" "Еда" 200%float "2024-01-10" ""]
  /\ newest_first [mk_transaction "Расход" "Еда" 50%float "2024-02-01" "";
                   mk_transaction "Расход" "Еда" 200%float "2024-01-10" ""].
Proof.
  assert (H : show_category_transactions "Расход" "Еда" Examples.ledger
              = Listing "Еда" "Расход"
                        [mk_transaction "Расход" "Еда" 50%float "2024-02-01" "";
                         mk_transaction "Расход" "Еда" 200%float "2024-01-10" ""])
    by reflexivity.
  split; [exact H |].
  destruct (category_dialog_lists_latest _ _ _ _ _ _ H) as (_ & _ & _ & _ & Hnew & _).
  exact Hnew.
Defined.

(** At nine in the morning the expense of the first of January is not in
    the period of the month; at midnight it is. *)
Lemma stats_period_starts_witness :
  Forall (fun t => strptime_ymd (tx_date t) <> None) (transactions Cases.new_year)
  /\ period_transactions this_month Cases.morning Cases.new_year
     = Some [mk_transaction "Расход" "Еда" 20%float "2024-01-02" ""]
  /\ period_transactions this_month Cases.midnight Cases.new_year
     = Some (transactions Cases.new_year).
Proof.
  assert (H : Forall (fun t => strptime_ymd (tx_date t) <> None)
                     (transactions Cases.new_year)).
  { repeat (apply Forall_cons; [intros E; vm_compute in E; discriminate E |]).
    apply Forall_nil. }
  split; [exact H |].
  destruct (stats_period_starts Cases.morning Cases.new_year H)
    as ((shown & Hp & Hs & _) & _).
  destruct (stats_period_starts Cases.midnight Cases.new_year H)
    as ((shown' & Hp' & Hs' & _) & _).
  subst shown shown'. split; [exact Hp | exact Hp'].
Defined.

Lemma stats_series_witness :
  update_stats this_month Cases.morning Examples.ledger
  = Some (mk_stats [mk_datetime 2024 1 5; mk_datetime 2024 1 10; mk_datetime 2024 2 1]
                   [1000%float; 0%float; 0%float]
                   [0%float; 200%float; 50%float]
                   [("Зарплата", 1000%float)])
  /\ StronglySorted earlier
       [mk_datetime 2024 1 5; mk_datetime 2024 1 10; mk_datetime 2024 2 1].
Proof.
  assert (H : update_stats this_month Cases.morning Examples.ledger
              = Some (mk_stats
                        [mk_datetime 2024 1 5; mk_datetime 2024 1 10; mk_datetime 2024 2 1]
                        [1000%float; 0%float; 0%float]
                        [0%float; 200%float; 50%float]
                        [("Зарплата", 1000%float)])) by reflexivity.
  split; [exact H |].
  destruct (stats_series _ _ _ _ H) as (shown & _ & Hsorted & _).
  exact Hsorted.
Defined.

(** The file that the export of the worked example leaves. *)
Lemma exported_file_example :
  export_to_csv Format64.format_2f Examples.ledger
  = ["Дата;Тип;Категория;Сумма;Описание" ++ newline;
     "2024-01-05;Доход;Зарплата;1000.00;" ++ newline;
     "2024-01-10;Расход;Еда;200.00;" ++ newline;
     "2024-02-01;Расход;Еда;50.00;" ++ newline].
Proof. reflexivity. Qed.

Lemma export_import_round_trip_witness :
  Forall (exportable Format64.format_2f) (transactions Examples.ledger)
  /\ transactions
       (import_from_csv
          (Utf8 (PyFile.lines (exported_file Format64.format_2f Examples.ledger)))
          Examples.period Examples.noon init)
     = transactions Examples.ledger.
Proof.
  assert (H : Forall (exportable Format64.format_2f) (transactions Examples.ledger)).
  { repeat (apply Forall_cons; [repeat split; reflexivity |]). apply Forall_nil. }
  split; [exact H |].
  destruct (@export_import_round_trip Binary64 Format64.format_2f Examples.ledger init
                                      Examples.period Examples.noon H)
    as (_ & _ & Hsame).
  apply Hsame.
  repeat (apply Forall_cons; [reflexivity |]). apply Forall_nil.
Defined.

(** An amount with more than two decimals is not read back as it was: the
    export of 0.125 is read as 0.12. *)
Lemma export_rounds_amounts :
  reimported Format64.format_2f (mk_transaction "Расход" "Еда" 0.125%float "2024-01-10" "")
  = Some (mk_transaction "Расход" "Еда" 0x1.eb851eb851eb8p-4%float "2024-01-10" "").
Proof. reflexivity. Qed.

Lemma inert_fields_stay_witness :
  untouched (@init Binary64) /\ untouched Cases.evening.
Proof.
  assert (H : untouched (@init Binary64)) by (split; constructor).
  split; [exact H |].
  exact (inert_fields_stay Cases.busy_day init H).
Defined.

(** A document without limits empties the limits that the state held; a
    document that is a list is reported. *)
Lemma load_data_examples :
  option_map budget_limits (load_data Cases.bare_document) = Some []
  /\ load_data Cases.list_document
     = Some (emit (Warning load_failed) Cases.list_document).
Proof. split; reflexivity. Qed.
